(** * lsst.display.ds9: the XPA connector ([python/lsst/display/ds9/xpa.cc])

    A shallow embedding of the connection singleton [myXPA] and of the three
    request wrappers [XPAGet1], [XPASet1] and [XPASetFd1], followed by the
    properties of the connector's specification.

    The XPA library itself ([xpa.h]) is an external collaborator.  Its
    primitives are taken as a parameter: a [Transport] gives the result of
    every primitive as a function of the calls made so far and of the
    arguments of the call. *)

From Stdlib Require Import ZArith List String Bool Lia.
From Stdlib.Strings Require Import Byte.
Import ListNotations.
Open Scope Z_scope.

(** ** C data *)

(** [XPA] is [struct xparec *].  The connector never looks inside the record:
    it compares the pointer with [NULL] and hands it on, so the address is
    all that is modelled. *)
Definition XPA := Z.
Definition NULL : XPA := 0.

(** A [char *] is either the null pointer ([None]) or points into an array;
    [Some bs] lists the bytes from the pointer up to the end of that array. *)
Definition char_ptr := option (list byte).

(** A string literal: its characters followed by the terminating NUL. *)
Definition cstr (s : string) : char_ptr := Some (list_byte_of_string s ++ [x00]).

(** The literal with no characters, the value the set wrappers return. *)
Definition empty_cstr : char_ptr := cstr EmptyString.

Definition is_null (p : char_ptr) : bool :=
  match p with
  | None => true
  | Some _ => false
  end.

(** [strlen]: the number of bytes before the first NUL.  Reading through a
    null pointer, or past the end of the array without meeting a NUL, has no
    defined behaviour: [None]. *)
Fixpoint strlen_from (bs : list byte) : option nat :=
  match bs with
  | [] => None
  | b :: rest =>
      if Byte.eqb b x00 then Some 0%nat
      else match strlen_from rest with
           | Some n => Some (S n)
           | None => None
           end
  end.

Definition strlen (p : char_ptr) : option Z :=
  match p with
  | None => None
  | Some bs => option_map Z.of_nat (strlen_from bs)
  end.

(** [int] is 32 bits wide.  [len = strlen(buf)] stores a [size_t] in an
    [int]: the value is reduced modulo 2^32 into the signed range. *)
Definition INT_MAX : Z := 2147483647.
Definition int_of_size_t (n : Z) : Z := (n + 2 ^ 31) mod 2 ^ 32 - 2 ^ 31.

(** A buffer [strlen] may be applied to: non-null, with a NUL inside its
    array. *)
Definition valid_cstring (p : char_ptr) : Prop :=
  exists pre post, p = Some (pre ++ x00 :: post).

(** ** The transport *)

(** What [XPAGet] hands back: its return value and the cells it was given
    the addresses of ([&buf], [&len], [&error]). *)
Record GetReply := {
  get_n : Z;
  get_buf : char_ptr;
  get_len : Z;
  get_error : char_ptr
}.

(** What [XPASet] and [XPASetFd] hand back: the return value and [error]. *)
Record SetReply := {
  set_n : Z;
  set_error : char_ptr
}.

(** One call of a transport primitive, with its arguments and its result.
    The argument [names] is always [NULL] in this file and is left out; the
    last argument [n] (the most responders to talk to) is kept. *)
Inductive event :=
| EOpen (mode : char_ptr) (ret : XPA)
| EClose (xpa : XPA)
| EGet (xpa : XPA) (xtemplate paramlist mode : char_ptr) (n : Z) (r : GetReply)
| ESet (xpa : XPA) (xtemplate paramlist mode buf : char_ptr) (len n : Z)
       (r : SetReply)
| ESetFd (xpa : XPA) (xtemplate paramlist mode : char_ptr) (fd n : Z)
         (r : SetReply).

(** The behaviour of the XPA library in one run of the process. *)
Record Transport := {
  open_result : list event -> char_ptr -> XPA;
  get_result :
    list event -> XPA -> char_ptr -> char_ptr -> char_ptr -> Z -> GetReply;
  set_result :
    list event -> XPA -> char_ptr -> char_ptr -> char_ptr -> char_ptr ->
    Z -> Z -> SetReply;
  setfd_result :
    list event -> XPA -> char_ptr -> char_ptr -> char_ptr -> Z -> Z -> SetReply
}.

(** ** Program state and control *)

(** [lsst::pex::exceptions::IoError], the only exception this file throws. *)
Inductive exn := IoError (what : string).

(** How a call ends: it returns, it throws, or it has no defined
    behaviour. *)
Inductive outcome (A : Type) :=
| Return (a : A)
| Throw (e : exn)
| Undefined.
Arguments Return {A} a.
Arguments Throw {A} e.
Arguments Undefined {A}.

(** An object of class [myXPA]: the class has no non-static data member. *)
Inductive myXPA := myXPA_obj.

(** The two statics of the file and the calls made to the transport so far.
    [singleton] is the function-local [static myXPA *singleton] of
    [myXPA::get], [_xpa] is [XPA myXPA::_xpa]. *)
Record state := {
  singleton : option myXPA;
  _xpa : XPA;
  trace : list event
}.

(** The statics as initialised: [singleton = NULL], [myXPA::_xpa = NULL]. *)
Definition initial : state :=
  {| singleton := None; _xpa := NULL; trace := [] |}.

Definition M (A : Type) : Type := state -> outcome A * state.

Definition ret {A} (a : A) : M A := fun s => (Return a, s).
Definition throw {A} (e : exn) : M A := fun s => (Throw e, s).
Definition undefined {A} : M A := fun s => (Undefined, s).

(** Sequencing: what was written before a throw stays written. *)
Definition bind {A B} (m : M A) (k : A -> M B) : M B :=
  fun s =>
    match m s with
    | (Return a, s') => k a s'
    | (Throw e, s') => (Throw e, s')
    | (Undefined, s') => (Undefined, s')
    end.

Notation "x <- m ;; k" := (bind m (fun x => k))
  (at level 61, m at next level, right associativity).
Notation "m ;; k" := (bind m (fun _ => k))
  (at level 61, right associativity).

Definition get_singleton : M (option myXPA) := fun s => (Return (singleton s), s).
Definition put_singleton (p : option myXPA) : M unit :=
  fun s => (Return tt, {| singleton := p; _xpa := _xpa s; trace := trace s |}).
Definition get_xpa : M XPA := fun s => (Return (_xpa s), s).
Definition put_xpa (h : XPA) : M unit :=
  fun s => (Return tt, {| singleton := singleton s; _xpa := h; trace := trace s |}).
Definition log (e : event) (s : state) : state :=
  {| singleton := singleton s; _xpa := _xpa s; trace := trace s ++ [e] |}.

(** ** The program *)

Section Connector.

Variable T : Transport.

(** *** Calls into the XPA library *)

Definition XPAOpen (mode : char_ptr) : M XPA :=
  fun s =>
    let h := open_result T (trace s) mode in
    (Return h, log (EOpen mode h) s).

Definition XPAClose (xpa : XPA) : M unit :=
  fun s => (Return tt, log (EClose xpa) s).

Definition XPAGet (xpa : XPA) (xtemplate paramlist mode : char_ptr) (n : Z)
  : M GetReply :=
  fun s =>
    let r := get_result T (trace s) xpa xtemplate paramlist mode n in
    (Return r, log (EGet xpa xtemplate paramlist mode n r) s).

Definition XPASet (xpa : XPA) (xtemplate paramlist mode buf : char_ptr)
    (len n : Z) : M SetReply :=
  fun s =>
    let r := set_result T (trace s) xpa xtemplate paramlist mode buf len n in
    (Return r, log (ESet xpa xtemplate paramlist mode buf len n r) s).

Definition XPASetFd (xpa : XPA) (xtemplate paramlist mode : char_ptr)
    (fd n : Z) : M SetReply :=
  fun s =>
    let r := setfd_result T (trace s) xpa xtemplate paramlist mode fd n in
    (Return r, log (ESetFd xpa xtemplate paramlist mode fd n r) s).

(** [strlen(buf)] as a step of the program. *)
Definition call_strlen (buf : char_ptr) : M Z :=
  match strlen buf with
  | Some n => ret n
  | None => undefined
  end.

(** *** class myXPA *)

(** [new myXPA(mode)]: the constructor stores the result of [XPAOpen] in the
    static [_xpa] and throws when it is null. *)
Definition myXPA_new (mode : char_ptr) : M myXPA :=
  h <- XPAOpen mode ;;
  put_xpa h ;;
  x <- get_xpa ;;
  if x =? NULL then throw (IoError "Unable to open XPA")
  else ret myXPA_obj.

(** [delete singleton]: the destructor is [XPAClose(_xpa)]. *)
Definition myXPA_delete : M unit :=
  h <- get_xpa ;;
  XPAClose h.

(** [singleton == NULL] *)
Definition no_object (p : option myXPA) : bool :=
  match p with
  | None => true
  | Some _ => false
  end.

(** [myXPA::get(reset)].  When the constructor throws, the assignment to
    [singleton] does not take place. *)
Definition myXPA_get (reset : bool) : M XPA :=
  p <- get_singleton ;;
  (if reset && negb (no_object p)
   then myXPA_delete ;; put_singleton None
   else ret tt) ;;
  p <- get_singleton ;;
  (if no_object p
   then o <- myXPA_new (cstr "w") ;; put_singleton (Some o)
   else ret tt) ;;
  get_xpa.

(** The connection manager's [acquire] of the specification is the call
    [myXPA::get()], with the default [reset = false]. *)
Definition acquire : M XPA := myXPA_get false.

(** [void reset() { myXPA::get(true); }] *)
Definition reset : M unit :=
  myXPA_get true ;; ret tt.

(** [n] calls of [acquire] in a row, with the handles they return. *)
Fixpoint acquire_many (n : nat) : M (list XPA) :=
  match n with
  | O => ret []
  | S k => h <- acquire ;; hs <- acquire_many k ;; ret (h :: hs)
  end.

(** How a call ends when it had to open the connection and [XPAOpen] gave
    [NULL]: the exception of the constructor, one call of [XPAOpen] in the
    trace and nothing else, still no object. *)
Definition open_failed {A} (s : state) : outcome A * state :=
  (Throw (IoError "Unable to open XPA"),
   {| singleton := None; _xpa := NULL;
      trace := trace s ++ [EOpen (cstr "w") NULL] |}).

(** *** The request wrappers *)

(** [if (xpa == NULL) { xpa = myXPA::get(); }] *)
Definition resolve (xpa : XPA) : M XPA :=
  if xpa =? NULL then myXPA_get false else ret xpa.

Definition XPAGet1 (xpa : XPA) (xtemplate paramlist mode : char_ptr)
  : M char_ptr :=
  xpa <- resolve xpa ;;
  r <- XPAGet xpa xtemplate paramlist mode 1 ;;
  if get_n r =? 0 then throw (IoError "XPAGet returned 0")
  else if negb (is_null (get_error r)) then ret (get_error r)
  else if is_null (get_buf r)
       then throw (IoError "XPAGet returned a null buffer pointer")
       else ret (get_buf r).

(** [if (len < 0) { len = strlen(buf); }] *)
Definition auto_len (buf : char_ptr) (len : Z) : M Z :=
  if len <? 0 then n <- call_strlen buf ;; ret (int_of_size_t n)
  else ret len.

Definition XPASet1 (xpa : XPA) (xtemplate paramlist mode buf : char_ptr)
    (len : Z) : M char_ptr :=
  len <- auto_len buf len ;;
  xpa <- resolve xpa ;;
  r <- XPASet xpa xtemplate paramlist mode buf len 1 ;;
  if set_n r =? 0 then throw (IoError "XPASet returned 0")
  else if negb (is_null (set_error r)) then ret (set_error r)
  else ret empty_cstr.

Definition XPASetFd1 (xpa : XPA) (xtemplate paramlist mode : char_ptr)
    (fd : Z) : M char_ptr :=
  xpa <- resolve xpa ;;
  r <- XPASetFd xpa xtemplate paramlist mode fd 1 ;;
  if set_n r =? 0 then throw (IoError "XPASetFd returned 0")
  else if negb (is_null (set_error r)) then ret (set_error r)
  else ret empty_cstr.

(** *** The module as bound to Python *)

(** [mod.def("set", &XPASet1, ..., "len"_a = -1)]: [len] left out by the
    caller is the sentinel [-1]. *)
Definition len_default : Z := -1.

Definition set (xpa : XPA) (xtemplate paramlist mode buf : char_ptr)
    (len : option Z) : M char_ptr :=
  XPASet1 xpa xtemplate paramlist mode buf
    (match len with Some l => l | None => len_default end).

(** The operations a run of the process is made of: the four bound
    functions, and [myXPA::get()] on its own. *)
Inductive op :=
| OpAcquire
| OpReset
| OpGet (xpa : XPA) (xtemplate paramlist mode : char_ptr)
| OpSet (xpa : XPA) (xtemplate paramlist mode buf : char_ptr) (len : option Z)
| OpSetFd (xpa : XPA) (xtemplate paramlist mode : char_ptr) (fd : Z).

Definition exec (o : op) : M unit :=
  match o with
  | OpAcquire => acquire ;; ret tt
  | OpReset => reset
  | OpGet xpa xtemplate paramlist mode =>
      XPAGet1 xpa xtemplate paramlist mode ;; ret tt
  | OpSet xpa xtemplate paramlist mode buf len =>
      set xpa xtemplate paramlist mode buf len ;; ret tt
  | OpSetFd xpa xtemplate paramlist mode fd =>
      XPASetFd1 xpa xtemplate paramlist mode fd ;; ret tt
  end.

(** A run of operations, one after the other; it stops where the behaviour
    is not defined, and goes on after an exception, which the caller may
    catch. *)
Fixpoint run (os : list op) (s : state) : state :=
  match os with
  | [] => s
  | o :: rest =>
      match exec o s with
      | (Undefined, s1) => s1
      | (_, s1) => run rest s1
      end
  end.

(** The states a process can be in: the initial one, and the one left by
    any operation that ended with defined behaviour.  The bound functions
    run one at a time: the binding does not release the interpreter lock. *)
Inductive reachable : state -> Prop :=
| reachable_initial : reachable initial
| reachable_exec o s :
    reachable s -> fst (exec o s) <> Undefined -> reachable (snd (exec o s)).

(** Process teardown.  [singleton] and [_xpa] are statics of pointer type:
    they have no destructor, and the file registers nothing to run at exit,
    so the end of the process runs no code of this file. *)
Definition process_exit : M unit := ret tt.

End Connector.

(** ** Reading a trace *)

(** The sessions opened and not yet closed, oldest first.  [None] when some
    [XPAClose] was given a handle that was not open at that time (closed
    before, or never opened). *)
Fixpoint remove_first (h : XPA) (l : list XPA) : option (list XPA) :=
  match l with
  | [] => None
  | x :: rest =>
      if x =? h then Some rest
      else match remove_first h rest with
           | Some rest' => Some (x :: rest')
           | None => None
           end
  end.

Definition audit_step (live : option (list XPA)) (e : event)
  : option (list XPA) :=
  match live with
  | None => None
  | Some l =>
      match e with
      | EOpen _ h => if h =? NULL then Some l else Some (l ++ [h])
      | EClose h => remove_first h l
      | _ => Some l
      end
  end.

Definition open_sessions (tr : list event) : option (list XPA) :=
  fold_left audit_step tr (Some []).

(** The handle the connection manager holds, as a list of at most one. *)
Definition stored (s : state) : list XPA :=
  match singleton s with
  | Some _ => [_xpa s]
  | None => []
  end.

(** At most one session open, and no stray [XPAClose]. *)
Definition within_one (live : option (list XPA)) : bool :=
  match live with
  | Some l => (List.length l <=? 1)%nat
  | None => false
  end.

(** The same at every moment of a trace, that is after each of its calls. *)
Definition never_two (tr : list event) : Prop :=
  forall before after, tr = before ++ after ->
    within_one (open_sessions before) = true.

(** What ties the statics to the trace: the sessions still open are exactly
    the stored handle, a stored handle is never null, and there never were
    two sessions. *)
Definition inv (s : state) : Prop :=
  open_sessions (trace s) = Some (stored s) /\
  (singleton s <> None -> _xpa s <> NULL) /\
  never_two (trace s).

Definition is_open (e : event) : bool :=
  match e with EOpen _ _ => true | _ => false end.
Definition is_close (e : event) : bool :=
  match e with EClose _ => true | _ => false end.

(** The calls of [XPAOpen], and of [XPAClose], in a trace. *)
Definition opens (tr : list event) : list event := filter is_open tr.
Definition closes (tr : list event) : list event := filter is_close tr.

(** [s'] holds the connection [s] held: no [XPAClose] was called in
    between, and a handle stored in [s] is still the stored one, not opened
    anew. *)
Definition same_connection (s s' : state) : Prop :=
  closes (trace s') = closes (trace s) /\
  forall o, singleton s = Some o ->
    singleton s' = Some o /\ _xpa s' = _xpa s /\
    opens (trace s') = opens (trace s).

(** The [len] argument of the last [XPASet] of a trace. *)
Definition passed_len (tr : list event) : option Z :=
  match rev (filter (fun e => match e with ESet _ _ _ _ _ _ _ _ => true
                                        | _ => false end) tr) with
  | ESet _ _ _ _ _ len _ _ :: _ => Some len
  | _ => None
  end.

(** ** Stub transports *)

(** A transport that answers every call the same way. *)
Definition stub (h : XPA) (g : GetReply) (r : SetReply) : Transport :=
  {| open_result := fun _ _ => h;
     get_result := fun _ _ _ _ _ _ => g;
     set_result := fun _ _ _ _ _ _ _ _ => r;
     setfd_result := fun _ _ _ _ _ _ _ => r |}.

Definition reply_payload (p : string) : GetReply :=
  {| get_n := 1; get_buf := cstr p; get_len := Z.of_nat (String.length p);
     get_error := None |}.
Definition set_ok : SetReply := {| set_n := 1; set_error := None |}.

(** Nobody answered. *)
Definition reply_no_match : GetReply :=
  {| get_n := 0; get_buf := None; get_len := 0; get_error := None |}.
Definition set_no_match : SetReply := {| set_n := 0; set_error := None |}.

(** One responder answered with an error message. *)
Definition reply_error (msg : string) : GetReply :=
  {| get_n := 1; get_buf := None; get_len := 0; get_error := cstr msg |}.
Definition set_failed (msg : string) : SetReply :=
  {| set_n := 1; set_error := cstr msg |}.

(** One responder answered with nothing. *)
Definition reply_nothing : GetReply :=
  {| get_n := 1; get_buf := None; get_len := 0; get_error := None |}.

(** One responder, payload ["1"], sets accepted; [XPAOpen] gives address 7. *)
Definition ds9_stub : Transport := stub 7 (reply_payload "1") set_ok.

(** The state [ds9_stub] is in once the connection is open. *)
Definition ds9_open : state :=
  {| singleton := Some myXPA_obj; _xpa := 7; trace := [EOpen (cstr "w") 7] |}.

(** [XPAOpen] fails. *)
Definition closed_stub : Transport := stub NULL (reply_payload "1") set_ok.

(** A transport whose first [XPAOpen] fails and whose later ones give
    address 7. *)
Definition flaky_stub : Transport :=
  {| open_result := fun tr _ => match tr with [] => NULL | _ => 7 end;
     get_result := fun _ _ _ _ _ _ => reply_payload "1";
     set_result := fun _ _ _ _ _ _ _ _ => set_ok;
     setfd_result := fun _ _ _ _ _ _ _ => set_ok |}.

(** ** More ways to read a trace *)

(** The requests made: the calls of [XPAGet], [XPASet] and [XPASetFd]. *)
Definition is_request (e : event) : bool :=
  match e with
  | EGet _ _ _ _ _ _ => true
  | ESet _ _ _ _ _ _ _ _ => true
  | ESetFd _ _ _ _ _ _ _ => true
  | _ => false
  end.
Definition requests (tr : list event) : list event := filter is_request tr.

(** The calls of [XPAOpen] that gave a handle. *)
Definition is_successful_open (e : event) : bool :=
  match e with
  | EOpen _ h => negb (h =? NULL)
  | _ => false
  end.
Definition successful_opens (tr : list event) : list event :=
  filter is_successful_open tr.

(** A call as this file makes them: [XPAOpen] with mode ["w"], every other
    primitive on a handle that is not null, a request for one responder. *)
Definition well_formed_call (e : event) : Prop :=
  match e with
  | EOpen mode _ => mode = cstr "w"
  | EClose h => h <> NULL
  | EGet h _ _ _ n _ => h <> NULL /\ n = 1
  | ESet h _ _ _ _ _ n _ => h <> NULL /\ n = 1
  | ESetFd h _ _ _ _ n _ => h <> NULL /\ n = 1
  end.

(** The exceptions of the wrappers once the request has been made. *)
Definition request_errors (o : op) : list exn :=
  match o with
  | OpGet _ _ _ _ =>
      [IoError "XPAGet returned 0";
       IoError "XPAGet returned a null buffer pointer"]
  | OpSet _ _ _ _ _ _ => [IoError "XPASet returned 0"]
  | OpSetFd _ _ _ _ _ => [IoError "XPASetFd returned 0"]
  | _ => []
  end.

(** * Properties *)

(** ** C strings *)

Lemma strlen_from_first_nul pre post :
  ~ In x00 pre ->
  strlen_from (pre ++ x00 :: post) = Some (List.length pre).
Proof.
  induction pre as [|b pre IH]; intros Hnot; simpl.
  - reflexivity.
  - destruct (Byte.eqb b x00) eqn:E.
    + apply byte_dec_bl in E. subst b. exfalso. apply Hnot. now left.
    + rewrite IH; [reflexivity |]. intros Hin. apply Hnot. now right.
Qed.

Lemma strlen_from_split bs n :
  strlen_from bs = Some n ->
  exists pre post,
    bs = pre ++ x00 :: post /\ ~ In x00 pre /\ List.length pre = n.
Proof.
  revert n. induction bs as [|b bs IH]; intros n H; simpl in H.
  - discriminate.
  - destruct (Byte.eqb b x00) eqn:E.
    + apply byte_dec_bl in E. subst b. injection H as <-.
      exists [], bs. repeat split. intros [].
    + destruct (strlen_from bs) as [m|] eqn:Em; [|discriminate].
      injection H as <-.
      destruct (IH m eq_refl) as (pre & post & -> & Hnot & Hlen).
      exists (b :: pre), post. repeat split.
      * intros [Hb | Hin]; [|now apply Hnot].
        subst b. discriminate E.
      * simpl. now rewrite Hlen.
Qed.

Lemma strlen_from_nul_inside pre post :
  strlen_from (pre ++ x00 :: post) <> None.
Proof.
  induction pre as [|b pre IH]; simpl.
  - discriminate.
  - destruct (Byte.eqb b x00); [discriminate |].
    destruct (strlen_from (pre ++ x00 :: post)); [discriminate | contradiction].
Qed.

Lemma strlen_defined_iff p : strlen p <> None <-> valid_cstring p.
Proof.
  unfold valid_cstring. split.
  - destruct p as [bs|]; simpl; [|contradiction].
    destruct (strlen_from bs) as [n|] eqn:E; [|contradiction].
    intros _. destruct (strlen_from_split _ _ E) as (pre & post & -> & _).
    now exists pre, post.
  - intros (pre & post & ->). simpl.
    pose proof (strlen_from_nul_inside pre post) as H.
    destruct (strlen_from (pre ++ x00 :: post)); [discriminate | contradiction].
Qed.

Lemma int_of_size_t_small n : 0 <= n <= INT_MAX -> int_of_size_t n = n.
Proof.
  unfold int_of_size_t, INT_MAX. intros H.
  rewrite Z.mod_small; lia.
Qed.

(** One past [INT_MAX] the stored length is negative. *)
Example int_of_size_t_wraps : int_of_size_t (INT_MAX + 1) = - 2 ^ 31.
Proof. reflexivity. Qed.

Lemma strlen_nonneg buf m : strlen buf = Some m -> 0 <= m.
Proof.
  destruct buf as [bs|]; simpl; [|discriminate].
  destruct (strlen_from bs); simpl; [|discriminate].
  intros H. injection H as <-. lia.
Qed.

(** ** Reading a trace *)

Lemma open_sessions_snoc tr e :
  open_sessions (tr ++ [e]) = audit_step (open_sessions tr) e.
Proof. unfold open_sessions. now rewrite fold_left_app. Qed.

Lemma closes_snoc tr e :
  closes (tr ++ [e]) = closes tr ++ (if is_close e then [e] else []).
Proof.
  unfold closes. rewrite filter_app. simpl. now destruct (is_close e).
Qed.

Lemma opens_snoc tr e :
  opens (tr ++ [e]) = opens tr ++ (if is_open e then [e] else []).
Proof.
  unfold opens. rewrite filter_app. simpl. now destruct (is_open e).
Qed.

Lemma passed_len_snoc tr xpa xtemplate paramlist mode buf len n r :
  passed_len (tr ++ [ESet xpa xtemplate paramlist mode buf len n r]) = Some len.
Proof.
  unfold passed_len. rewrite filter_app, rev_app_distr. reflexivity.
Qed.

(** ** The connection manager *)

Section ConnectorFacts.

Variable T : Transport.

(** With an object in place [myXPA::get()] hands out the stored handle and
    touches nothing. *)
Lemma myXPA_get_stored o s :
  singleton s = Some o -> myXPA_get T false s = (Return (_xpa s), s).
Proof.
  intros H. unfold myXPA_get, bind, get_singleton, get_xpa, ret. simpl.
  now rewrite H.
Qed.

(** With no object it calls [XPAOpen("w")] once and keeps the object only
    when the result is not null. *)
Lemma myXPA_get_fresh s :
  singleton s = None ->
  myXPA_get T false s =
    let h := open_result T (trace s) (cstr "w") in
    (if h =? NULL then Throw (IoError "Unable to open XPA") else Return h,
     {| singleton := if h =? NULL then None else Some myXPA_obj;
        _xpa := h;
        trace := trace s ++ [EOpen (cstr "w") h] |}).
Proof.
  intros H. unfold myXPA_get, bind, get_singleton, get_xpa, ret. simpl.
  rewrite H.
  unfold myXPA_new, bind, XPAOpen, put_xpa, put_singleton, log, throw, ret.
  simpl.
  destruct (open_result T (trace s) (cstr "w") =? NULL); simpl;
    rewrite ?H; reflexivity.
Qed.

(** [myXPA::get(true)]: close what is stored, then open again. *)
Lemma myXPA_get_reset s :
  myXPA_get T true s =
    let tr := trace s ++ match singleton s with
                         | Some _ => [EClose (_xpa s)]
                         | None => []
                         end in
    let h := open_result T tr (cstr "w") in
    (if h =? NULL then Throw (IoError "Unable to open XPA") else Return h,
     {| singleton := if h =? NULL then None else Some myXPA_obj;
        _xpa := h;
        trace := tr ++ [EOpen (cstr "w") h] |}).
Proof.
  unfold myXPA_get, bind, get_singleton, get_xpa, ret. simpl.
  destruct (singleton s) as [o|] eqn:H; simpl.
  - unfold myXPA_new, myXPA_delete, bind, XPAOpen, XPAClose, get_xpa, put_xpa,
      put_singleton, log, throw, ret. simpl.
    destruct (open_result T (trace s ++ [EClose (_xpa s)]) (cstr "w") =? NULL);
      reflexivity.
  - rewrite H.
    unfold myXPA_new, bind, XPAOpen, put_xpa, put_singleton, log, throw, ret.
    simpl. rewrite app_nil_r.
    destruct (open_result T (trace s) (cstr "w") =? NULL); simpl;
      rewrite ?H; reflexivity.
Qed.

(** Handle resolution of the wrappers, in full. *)
Lemma resolve_explicit xpa s :
  xpa <> NULL -> resolve T xpa s = (Return xpa, s).
Proof.
  intros H. unfold resolve. apply Z.eqb_neq in H. now rewrite H.
Qed.

Lemma resolve_null s : resolve T NULL s = myXPA_get T false s.
Proof. reflexivity. Qed.

Lemma resolve_cases xpa s :
  resolve T xpa s = (Return xpa, s) \/
  (exists o, singleton s = Some o /\ resolve T xpa s = (Return (_xpa s), s)) \/
  (singleton s = None /\
   resolve T xpa s =
     let h := open_result T (trace s) (cstr "w") in
     (if h =? NULL then Throw (IoError "Unable to open XPA") else Return h,
      {| singleton := if h =? NULL then None else Some myXPA_obj;
         _xpa := h;
         trace := trace s ++ [EOpen (cstr "w") h] |})).
Proof.
  unfold resolve. destruct (xpa =? NULL) eqn:E.
  - destruct (singleton s) as [o|] eqn:H.
    + right. left. exists o. split; [reflexivity|]. now apply myXPA_get_stored with o.
    + right. right. split; [reflexivity|]. now apply myXPA_get_fresh.
  - now left.
Qed.

End ConnectorFacts.

(** ** The wrappers, step by step *)

Section WrapperFacts.

Variable T : Transport.

Lemma XPAGet1_run xpa xtemplate paramlist mode s :
  XPAGet1 T xpa xtemplate paramlist mode s =
    match resolve T xpa s with
    | (Return h, s1) =>
        let r := get_result T (trace s1) h xtemplate paramlist mode 1 in
        (if get_n r =? 0 then Throw (IoError "XPAGet returned 0")
         else if negb (is_null (get_error r)) then Return (get_error r)
         else if is_null (get_buf r)
              then Throw (IoError "XPAGet returned a null buffer pointer")
              else Return (get_buf r),
         log (EGet h xtemplate paramlist mode 1 r) s1)
    | (Throw e, s1) => (Throw e, s1)
    | (Undefined, s1) => (Undefined, s1)
    end.
Proof.
  unfold XPAGet1, bind.
  destruct (resolve T xpa s) as [[h|e|] s1]; try reflexivity.
  unfold XPAGet, throw, ret. simpl.
  destruct (get_n _ =? 0); [reflexivity|].
  destruct (is_null (get_error _)); simpl; [|reflexivity].
  destruct (is_null (get_buf _)); reflexivity.
Qed.

Lemma XPASet1_run xpa xtemplate paramlist mode buf len s :
  XPASet1 T xpa xtemplate paramlist mode buf len s =
    match auto_len buf len s with
    | (Return l, _) =>
        match resolve T xpa s with
        | (Return h, s1) =>
            let r := set_result T (trace s1) h xtemplate paramlist mode buf l 1 in
            (if set_n r =? 0 then Throw (IoError "XPASet returned 0")
             else if negb (is_null (set_error r)) then Return (set_error r)
             else Return empty_cstr,
             log (ESet h xtemplate paramlist mode buf l 1 r) s1)
        | (Throw e, s1) => (Throw e, s1)
        | (Undefined, s1) => (Undefined, s1)
        end
    | (Throw e, _) => (Throw e, s)
    | (Undefined, _) => (Undefined, s)
    end.
Proof.
  unfold XPASet1, bind.
  assert (Hs : snd (auto_len buf len s) = s).
  { unfold auto_len, call_strlen, bind, ret, undefined.
    destruct (len <? 0); [|reflexivity].
    destruct (strlen buf); reflexivity. }
  destruct (auto_len buf len s) as [[l|e|] s0]; simpl in Hs; subst s0;
    try reflexivity.
  destruct (resolve T xpa s) as [[h|e|] s1]; try reflexivity.
  unfold XPASet, throw, ret. simpl.
  destruct (set_n _ =? 0); [reflexivity|].
  destruct (is_null (set_error _)); reflexivity.
Qed.

Lemma XPASetFd1_run xpa xtemplate paramlist mode fd s :
  XPASetFd1 T xpa xtemplate paramlist mode fd s =
    match resolve T xpa s with
    | (Return h, s1) =>
        let r := setfd_result T (trace s1) h xtemplate paramlist mode fd 1 in
        (if set_n r =? 0 then Throw (IoError "XPASetFd returned 0")
         else if negb (is_null (set_error r)) then Return (set_error r)
         else Return empty_cstr,
         log (ESetFd h xtemplate paramlist mode fd 1 r) s1)
    | (Throw e, s1) => (Throw e, s1)
    | (Undefined, s1) => (Undefined, s1)
    end.
Proof.
  unfold XPASetFd1, bind.
  destruct (resolve T xpa s) as [[h|e|] s1]; try reflexivity.
  unfold XPASetFd, throw, ret. simpl.
  destruct (set_n _ =? 0); [reflexivity|].
  destruct (is_null (set_error _)); reflexivity.
Qed.

(** [auto_len] in full: it never throws and leaves the state alone. *)
Lemma auto_len_run buf len s :
  auto_len buf len s =
    (if len <? 0
     then match strlen buf with
          | Some n => Return (int_of_size_t n)
          | None => Undefined
          end
     else Return len, s).
Proof.
  unfold auto_len, call_strlen, bind, ret, undefined.
  destruct (len <? 0); [|reflexivity].
  destruct (strlen buf); reflexivity.
Qed.

(** *** The invariant of the connection manager *)

Lemma within_one_stored s : within_one (Some (stored s)) = true.
Proof. unfold stored. now destruct (singleton s). Qed.

Lemma never_two_snoc tr e :
  never_two tr -> within_one (open_sessions (tr ++ [e])) = true ->
  never_two (tr ++ [e]).
Proof.
  intros Htr He before after Heq.
  destruct after as [|x after] using rev_ind.
  - rewrite app_nil_r in Heq. now subst before.
  - clear IHafter. rewrite app_assoc in Heq.
    apply app_inj_tail in Heq as [Heq _]. now apply (Htr before after).
Qed.

Lemma never_two_nil : never_two [].
Proof.
  intros before after H. symmetry in H.
  apply app_eq_nil in H as [-> _]. reflexivity.
Qed.

Lemma inv_log s e :
  is_open e = false -> is_close e = false -> inv s -> inv (log e s).
Proof.
  intros Ho Hc (H1 & H2 & H3).
  assert (E : open_sessions (trace s ++ [e]) = Some (stored s)).
  { rewrite open_sessions_snoc, H1.
    destruct e; simpl in *; try discriminate; reflexivity. }
  split; [exact E | split; [exact H2 |]].
  apply never_two_snoc; [exact H3 |].
  rewrite E. apply within_one_stored.
Qed.

Lemma inv_fresh s :
  inv s -> singleton s = None ->
  let h := open_result T (trace s) (cstr "w") in
  inv {| singleton := if h =? NULL then None else Some myXPA_obj;
         _xpa := h;
         trace := trace s ++ [EOpen (cstr "w") h] |}.
Proof.
  intros (H1 & H2 & H3) Hn h. unfold stored in H1. rewrite Hn in H1.
  set (s' := {| singleton := _; _xpa := h; trace := _ |}).
  assert (E : open_sessions (trace s') = Some (stored s')).
  { simpl. rewrite open_sessions_snoc, H1. unfold stored. simpl.
    destruct (h =? NULL); reflexivity. }
  split; [exact E | split].
  - simpl. destruct (h =? NULL) eqn:Eh; [congruence|].
    intros _. now apply Z.eqb_neq.
  - simpl. apply never_two_snoc; [exact H3 |].
    simpl in E. rewrite E. apply within_one_stored.
Qed.

Lemma inv_resolve xpa s : inv s -> inv (snd (resolve T xpa s)).
Proof.
  intros H.
  destruct (resolve_cases T xpa s) as [E | [(o & Ho & E) | (Hn & E)]];
    rewrite E; simpl; try exact H.
  now apply inv_fresh.
Qed.

Lemma inv_reset s : inv s -> inv (snd (myXPA_get T true s)).
Proof.
  intros (H1 & H2 & H3). rewrite myXPA_get_reset. simpl.
  set (tr := trace s ++ _). set (h := open_result T tr (cstr "w")).
  assert (Htr : open_sessions tr = Some [] /\ never_two tr).
  { subst tr. unfold stored in H1.
    destruct (singleton s) as [o|].
    - assert (E : open_sessions (trace s ++ [EClose (_xpa s)]) = Some []).
      { rewrite open_sessions_snoc, H1. simpl. now rewrite Z.eqb_refl. }
      split; [exact E |].
      apply never_two_snoc; [exact H3 | now rewrite E].
    - now rewrite app_nil_r. }
  destruct Htr as [Htr Hnt].
  set (s' := {| singleton := _; _xpa := h; trace := _ |}).
  assert (E : open_sessions (trace s') = Some (stored s')).
  { simpl. rewrite open_sessions_snoc, Htr. unfold stored. simpl.
    destruct (h =? NULL); reflexivity. }
  split; [exact E | split].
  - simpl. destruct (h =? NULL) eqn:Eh; [congruence|].
    intros _. now apply Z.eqb_neq.
  - simpl. apply never_two_snoc; [exact Hnt |].
    simpl in E. rewrite E. apply within_one_stored.
Qed.

Lemma inv_exec o s : inv s -> inv (snd (exec T o s)).
Proof.
  intros H. destruct o; simpl.
  - unfold acquire, bind, ret.
    pose proof (inv_resolve NULL s H) as Hr. rewrite resolve_null in Hr.
    destruct (myXPA_get T false s) as [[h|e|] s1]; exact Hr.
  - unfold reset, bind, ret.
    pose proof (inv_reset s H) as Hr.
    destruct (myXPA_get T true s) as [[h|e|] s1]; exact Hr.
  - unfold bind, ret. rewrite XPAGet1_run.
    pose proof (inv_resolve xpa s H) as Hr.
    destruct (resolve T xpa s) as [[h|e|] s1]; simpl in *; try exact Hr.
    destruct (if get_n _ =? 0 then _ else _); now apply inv_log.
  - unfold set, bind, ret. rewrite XPASet1_run, auto_len_run.
    pose proof (inv_resolve xpa s H) as Hr.
    destruct (if _ <? 0 then _ else _) as [l|e|]; simpl; try exact H.
    destruct (resolve T xpa s) as [[h|e|] s1]; simpl in *; try exact Hr.
    destruct (if set_n _ =? 0 then _ else _); now apply inv_log.
  - unfold bind, ret. rewrite XPASetFd1_run.
    pose proof (inv_resolve xpa s H) as Hr.
    destruct (resolve T xpa s) as [[h|e|] s1]; simpl in *; try exact Hr.
    destruct (if set_n _ =? 0 then _ else _); now apply inv_log.
Qed.

Lemma inv_initial : inv initial.
Proof.
  split; [reflexivity | split].
  - intros H; now elim H.
  - apply never_two_nil.
Qed.

Lemma reachable_inv s : reachable T s -> inv s.
Proof.
  induction 1 as [|o s Hs IH Hdef].
  - apply inv_initial.
  - now apply inv_exec.
Qed.

(** *** What the wrappers leave alone *)

Lemma same_connection_refl s : same_connection s s.
Proof. split; [reflexivity | intros o Ho; now repeat split]. Qed.

Lemma same_connection_log s s1 e :
  is_open e = false -> is_close e = false ->
  same_connection s s1 -> same_connection s (log e s1).
Proof.
  intros Ho Hc [H1 H2]. split; simpl.
  - now rewrite closes_snoc, Hc, app_nil_r.
  - intros o Hs. destruct (H2 o Hs) as (Ha & Hb & Hd).
    repeat split; try assumption.
    now rewrite opens_snoc, Ho, app_nil_r.
Qed.

Lemma same_connection_resolve xpa s :
  same_connection s (snd (resolve T xpa s)).
Proof.
  destruct (resolve_cases T xpa s) as [E | [(o & _ & E) | (Hn & E)]];
    rewrite E; simpl; try apply same_connection_refl.
  split; simpl.
  - now rewrite closes_snoc, app_nil_r.
  - intros o Ho. congruence.
Qed.

Lemma same_connection_XPAGet1 xpa xtemplate paramlist mode s :
  same_connection s (snd (XPAGet1 T xpa xtemplate paramlist mode s)).
Proof.
  rewrite XPAGet1_run.
  pose proof (same_connection_resolve xpa s) as Hr.
  destruct (resolve T xpa s) as [[h|e|] s1]; simpl in *; try exact Hr.
  now apply same_connection_log.
Qed.

Lemma same_connection_XPASet1 xpa xtemplate paramlist mode buf len s :
  same_connection s (snd (XPASet1 T xpa xtemplate paramlist mode buf len s)).
Proof.
  rewrite XPASet1_run, auto_len_run.
  pose proof (same_connection_resolve xpa s) as Hr.
  destruct (if _ <? 0 then _ else _) as [l|e|]; simpl;
    try apply same_connection_refl.
  destruct (resolve T xpa s) as [[h|e|] s1]; simpl in *; try exact Hr.
  now apply same_connection_log.
Qed.

Lemma same_connection_XPASetFd1 xpa xtemplate paramlist mode fd s :
  same_connection s (snd (XPASetFd1 T xpa xtemplate paramlist mode fd s)).
Proof.
  rewrite XPASetFd1_run.
  pose proof (same_connection_resolve xpa s) as Hr.
  destruct (resolve T xpa s) as [[h|e|] s1]; simpl in *; try exact Hr.
  now apply same_connection_log.
Qed.

Lemma snd_then_ret {A} (m : M A) s : snd ((m ;; ret tt) s) = snd (m s).
Proof. unfold bind, ret. now destruct (m s) as [[a|e|] s1]. Qed.

Lemma same_connection_exec o s :
  o <> OpReset -> same_connection s (snd (exec T o s)).
Proof.
  intros Ho. destruct o; simpl; try congruence; rewrite snd_then_ret.
  - unfold acquire. rewrite <- resolve_null. apply same_connection_resolve.
  - apply same_connection_XPAGet1.
  - apply same_connection_XPASet1.
  - apply same_connection_XPASetFd1.
Qed.

Lemma same_connection_run os s :
  ~ In OpReset os -> same_connection s (run T os s).
Proof.
  revert s. induction os as [|o os IH]; intros s Hno; simpl.
  - apply same_connection_refl.
  - assert (Ho : o <> OpReset) by (intros ->; apply Hno; now left).
    assert (Hos : ~ In OpReset os) by (intros Hin; apply Hno; now right).
    pose proof (same_connection_exec o s Ho) as [Hc Hk].
    assert (Hgo : same_connection s (run T os (snd (exec T o s)))).
    { destruct (IH (snd (exec T o s)) Hos) as [Hc' Hk'].
      split; [congruence |].
      intros obj Hobj. destruct (Hk obj Hobj) as (Ha & Hb & Hd).
      destruct (Hk' obj Ha) as (Ha' & Hb' & Hd').
      repeat split; congruence. }
    destruct (exec T o s) as [[a|e|] s1]; simpl in *;
      [exact Hgo | exact Hgo | now split].
Qed.

End WrapperFacts.

(** ** The request wrappers *)

(** C1.  Once the handle is resolved, [get] classifies the reply of the
    transport in this order: zero responders, it throws [IoError] (the
    specification's TransportError); an error string, it returns that very
    pointer and throws nothing; no error and a null payload, it throws
    [IoError]; otherwise it returns the payload pointer as it was handed
    over. *)
Theorem XPAGet1_outcomes T s xpa xtemplate paramlist mode h s1 :
  resolve T xpa s = (Return h, s1) ->
  let r := get_result T (trace s1) h xtemplate paramlist mode 1 in
  let res := fst (XPAGet1 T xpa xtemplate paramlist mode s) in
  (get_n r = 0 -> res = Throw (IoError "XPAGet returned 0")) /\
  (get_n r <> 0 -> forall e, get_error r = Some e -> res = Return (Some e)) /\
  (get_n r <> 0 -> get_error r = None -> get_buf r = None ->
   res = Throw (IoError "XPAGet returned a null buffer pointer")) /\
  (get_n r <> 0 -> get_error r = None ->
   forall p, get_buf r = Some p -> res = Return (Some p)).
Proof.
  intros Hres r res. subst res. rewrite XPAGet1_run, Hres. simpl. fold r.
  repeat split.
  - intros ->. reflexivity.
  - intros Hn e He. apply Z.eqb_neq in Hn. now rewrite Hn, He.
  - intros Hn He Hb. apply Z.eqb_neq in Hn. now rewrite Hn, He, Hb.
  - intros Hn He p Hb. apply Z.eqb_neq in Hn. now rewrite Hn, He, Hb.
Qed.

(** The four outcomes of C1 on stub transports, the last one being the
    scenario target ["ds9"], parameters ["frame 1"], empty mode, one match
    and payload ["1"]. *)
Lemma XPAGet1_outcomes_witness :
  let ask T :=
    fst (XPAGet1 T NULL (cstr "ds9") (cstr "frame 1") (cstr EmptyString)
           initial) in
  ask (stub 7 reply_no_match set_ok) = Throw (IoError "XPAGet returned 0") /\
  ask (stub 7 (reply_error "no such frame") set_ok)
    = Return (cstr "no such frame") /\
  ask (stub 7 reply_nothing set_ok)
    = Throw (IoError "XPAGet returned a null buffer pointer") /\
  ask ds9_stub = Return (cstr "1") /\
  resolve ds9_stub NULL initial = (Return 7, ds9_open).
Proof.
  pose (args T := XPAGet1_outcomes T initial NULL (cstr "ds9")
                    (cstr "frame 1") (cstr EmptyString)).
  intros ask. split; [|split; [|split; [|split; [|reflexivity]]]].
  - destruct (args (stub 7 reply_no_match set_ok) 7 ds9_open eq_refl)
      as (H & _ & _ & _).
    apply H. reflexivity.
  - destruct (args (stub 7 (reply_error "no such frame") set_ok) 7 ds9_open
                eq_refl)
      as (_ & H & _ & _).
    apply H; [discriminate | reflexivity].
  - destruct (args (stub 7 reply_nothing set_ok) 7 ds9_open eq_refl)
      as (_ & _ & H & _).
    apply H; [discriminate | reflexivity | reflexivity].
  - destruct (args ds9_stub 7 ds9_open eq_refl) as (_ & _ & _ & H).
    apply H; [discriminate | reflexivity | reflexivity].
Defined.

(** C2.  Once the length and the handle are resolved, [set] and [setFd]
    classify the reply alike: a nonzero match count and no error string,
    the result is the empty string; a zero match count, [IoError] is thrown;
    otherwise an error string is returned as it is, and nothing is thrown. *)
Theorem set_outcomes T s xpa xtemplate paramlist mode buf len fd h s1 :
  resolve T xpa s = (Return h, s1) ->
  (forall l, fst (auto_len buf len s) = Return l ->
     let r := set_result T (trace s1) h xtemplate paramlist mode buf l 1 in
     let res := fst (XPASet1 T xpa xtemplate paramlist mode buf len s) in
     (set_n r <> 0 -> set_error r = None -> res = Return empty_cstr) /\
     (set_n r = 0 -> res = Throw (IoError "XPASet returned 0")) /\
     (set_n r <> 0 -> forall e, set_error r = Some e -> res = Return (Some e)))
  /\
  (let r := setfd_result T (trace s1) h xtemplate paramlist mode fd 1 in
   let res := fst (XPASetFd1 T xpa xtemplate paramlist mode fd s) in
   (set_n r <> 0 -> set_error r = None -> res = Return empty_cstr) /\
   (set_n r = 0 -> res = Throw (IoError "XPASetFd returned 0")) /\
   (set_n r <> 0 -> forall e, set_error r = Some e -> res = Return (Some e)))
  /\ strlen empty_cstr = Some 0.
Proof.
  intros Hres. split; [|split; [|reflexivity]].
  - intros l Hl r res. subst res. rewrite XPASet1_run.
    destruct (auto_len buf len s) as [o s0]. simpl in Hl. subst o.
    rewrite Hres. simpl. fold r.
    repeat split.
    + intros Hn He. apply Z.eqb_neq in Hn. now rewrite Hn, He.
    + intros ->. reflexivity.
    + intros Hn e He. apply Z.eqb_neq in Hn. now rewrite Hn, He.
  - intros r res. subst res. rewrite XPASetFd1_run, Hres. simpl. fold r.
    repeat split.
    + intros Hn He. apply Z.eqb_neq in Hn. now rewrite Hn, He.
    + intros ->. reflexivity.
    + intros Hn e He. apply Z.eqb_neq in Hn. now rewrite Hn, He.
Qed.

(** The outcomes of C2 on stub transports, for a payload ["abc"] with the
    length left to [strlen] and for descriptor 3. *)
Lemma set_outcomes_witness :
  let send T :=
    fst (XPASet1 T NULL (cstr "ds9") (cstr "file") (cstr EmptyString)
           (cstr "abc") (-1) initial) in
  let send_fd T :=
    fst (XPASetFd1 T NULL (cstr "ds9") (cstr "file") (cstr EmptyString) 3
           initial) in
  (send ds9_stub = Return empty_cstr /\
   send (stub 7 reply_nothing set_no_match)
     = Throw (IoError "XPASet returned 0") /\
   send (stub 7 reply_nothing (set_failed "bad file"))
     = Return (cstr "bad file")) /\
  (send_fd ds9_stub = Return empty_cstr /\
   send_fd (stub 7 reply_nothing set_no_match)
     = Throw (IoError "XPASetFd returned 0") /\
   send_fd (stub 7 reply_nothing (set_failed "bad file"))
     = Return (cstr "bad file")) /\
  resolve ds9_stub NULL initial = (Return 7, ds9_open) /\
  fst (auto_len (cstr "abc") (-1) initial) = Return 3.
Proof.
  pose (args T := set_outcomes T initial NULL (cstr "ds9") (cstr "file")
                    (cstr EmptyString) (cstr "abc") (-1) 3).
  intros send send_fd.
  split; [|split; [|split; reflexivity]]; (split; [|split]).
  - destruct (args ds9_stub 7 ds9_open eq_refl) as (H & _).
    destruct (H 3 eq_refl) as (H1 & _ & _).
    apply H1; [discriminate | reflexivity].
  - destruct (args (stub 7 reply_nothing set_no_match) 7 ds9_open eq_refl)
      as (H & _).
    destruct (H 3 eq_refl) as (_ & H2 & _).
    apply H2. reflexivity.
  - destruct (args (stub 7 reply_nothing (set_failed "bad file")) 7 ds9_open
                eq_refl) as (H & _).
    destruct (H 3 eq_refl) as (_ & _ & H3).
    apply H3; [discriminate | reflexivity].
  - destruct (args ds9_stub 7 ds9_open eq_refl) as (_ & (H1 & _ & _) & _).
    apply H1; [discriminate | reflexivity].
  - destruct (args (stub 7 reply_nothing set_no_match) 7 ds9_open eq_refl)
      as (_ & (_ & H2 & _) & _).
    apply H2. reflexivity.
  - destruct (args (stub 7 reply_nothing (set_failed "bad file")) 7 ds9_open
                eq_refl) as (_ & (_ & _ & H3) & _).
    apply H3; [discriminate | reflexivity].
Defined.

(** ** The connection manager *)

(** C3, as the code has it.  [reset()] is [myXPA::get(true)]: it closes the
    stored handle when there is one and then, whether or not there was one,
    calls [XPAOpen("w")] and stores the result.  When that result is null
    it throws [IoError] and no handle is stored. *)
Theorem reset_closes_then_reopens T s :
  let tr := trace s ++ match singleton s with
                       | Some _ => [EClose (_xpa s)]
                       | None => []
                       end in
  let h := open_result T tr (cstr "w") in
  reset T s =
    (if h =? NULL then Throw (IoError "Unable to open XPA") else Return tt,
     {| singleton := if h =? NULL then None else Some myXPA_obj;
        _xpa := h;
        trace := tr ++ [EOpen (cstr "w") h] |}).
Proof.
  intros tr h. unfold reset, bind, ret. rewrite myXPA_get_reset.
  cbv zeta. fold tr. fold h. destruct (h =? NULL); reflexivity.
Qed.

(** C3 fails as stated: with no handle stored, [reset()] is not a no-op.
    It opens a connection, and with a transport that cannot open one it
    throws. *)
Lemma reset_without_handle_opens :
  singleton initial = None /\
  reset ds9_stub initial <> (Return tt, initial) /\
  opens (trace (snd (reset ds9_stub initial))) = [EOpen (cstr "w") 7] /\
  stored (snd (reset ds9_stub initial)) = [7] /\
  fst (reset closed_stub initial) = Throw (IoError "Unable to open XPA").
Proof.
  split; [reflexivity |].
  split; [discriminate |].
  repeat split.
Qed.

(** C4.  When a call of [acquire] returns a handle, every call of [acquire]
    that follows it with no [reset] in between returns that same handle,
    whether the calls come in a row or with requests in between, and
    [XPAOpen] is not called again.  The first call itself called [XPAOpen]
    once when no handle was stored and not at all otherwise. *)
Theorem acquire_idempotent T s h s' :
  acquire T s = (Return h, s') ->
  (forall n, acquire_many T (S n) s = (Return (repeat h (S n)), s')) /\
  (forall os, ~ In OpReset os ->
     acquire T (run T os s') = (Return h, run T os s') /\
     opens (trace (run T os s')) = opens (trace s')) /\
  (singleton s = None -> trace s' = trace s ++ [EOpen (cstr "w") h]) /\
  (singleton s <> None -> trace s' = trace s).
Proof.
  intros Hacq.
  assert (Hs' : exists o, singleton s' = Some o /\ _xpa s' = h).
  { unfold acquire in Hacq. destruct (singleton s) as [o|] eqn:Hs.
    - rewrite (myXPA_get_stored T o s Hs) in Hacq.
      injection Hacq as <- <-. now exists o.
    - rewrite (myXPA_get_fresh T s Hs) in Hacq. simpl in Hacq.
      destruct (open_result T (trace s) (cstr "w") =? NULL);
        [discriminate |].
      injection Hacq as <- <-. now exists myXPA_obj. }
  destruct Hs' as (o & Ho & Hh).
  assert (Hagain : acquire T s' = (Return h, s')).
  { unfold acquire. rewrite (myXPA_get_stored T o s' Ho). now rewrite Hh. }
  assert (Hmany : forall n, acquire_many T n s' = (Return (repeat h n), s')).
  { induction n as [|n IH]; [reflexivity |].
    simpl. unfold bind. rewrite Hagain, IH. reflexivity. }
  split; [|split; [|split]].
  - intros n. simpl. unfold bind. rewrite Hacq, Hmany. reflexivity.
  - intros os Hos.
    destruct (same_connection_run T os s' Hos) as [_ Hk].
    destruct (Hk o Ho) as (Ha & Hb & Hd).
    split; [|exact Hd].
    unfold acquire. rewrite (myXPA_get_stored T o _ Ha). congruence.
  - intros Hs. unfold acquire in Hacq.
    rewrite (myXPA_get_fresh T s Hs) in Hacq. simpl in Hacq.
    destruct (open_result T (trace s) (cstr "w") =? NULL); [discriminate |].
    injection Hacq as <- <-. reflexivity.
  - intros Hs. destruct (singleton s) as [o'|] eqn:Hs'; [|congruence].
    unfold acquire in Hacq. rewrite (myXPA_get_stored T o' s Hs') in Hacq.
    now injection Hacq as <- <-.
Qed.

(** C4 on the stub: three calls from the start give the same handle three
    times and one call of [XPAOpen]; a failed request in between changes
    nothing. *)
Lemma acquire_idempotent_witness :
  let T := stub 7 reply_no_match set_ok in
  let failing := [OpGet NULL (cstr "ds9") (cstr "frame 1") (cstr EmptyString)] in
  acquire T initial = (Return 7, ds9_open) /\
  acquire_many T 3 initial = (Return [7; 7; 7], ds9_open) /\
  fst (acquire T (run T failing ds9_open)) = Return 7 /\
  opens (trace (run T failing ds9_open)) = [EOpen (cstr "w") 7] /\
  trace ds9_open = trace initial ++ [EOpen (cstr "w") 7].
Proof.
  intros T failing.
  destruct (acquire_idempotent T initial 7 ds9_open eq_refl)
    as (Hmany & Hrun & Hopen & _).
  assert (Hno : ~ In OpReset failing).
  { intros [H | []]. discriminate H. }
  destruct (Hrun failing Hno) as [Ha Hb].
  split; [reflexivity | split; [exact (Hmany 2%nat) | split; [|split]]].
  - now rewrite Ha.
  - exact Hb.
  - exact (Hopen eq_refl).
Defined.

(** C6.  With no handle stored, [acquire] calls [XPAOpen] with mode ["w"],
    once.  When the result is null it throws [IoError "Unable to open XPA"]
    (the specification's ConnectionError), and a wrapper called without a
    handle ends with that same exception: the trace holds the one call of
    [XPAOpen] and nothing after it, neither a second attempt nor the
    request. *)
Theorem acquire_opens_w_or_fails T s :
  singleton s = None ->
  let h := open_result T (trace s) (cstr "w") in
  trace (snd (acquire T s)) = trace s ++ [EOpen (cstr "w") h] /\
  (h = NULL ->
   acquire T s = open_failed s /\
   (forall xtemplate paramlist mode,
      XPAGet1 T NULL xtemplate paramlist mode s = open_failed s) /\
   (forall xtemplate paramlist mode buf len,
      0 <= len \/ valid_cstring buf ->
      XPASet1 T NULL xtemplate paramlist mode buf len s = open_failed s) /\
   (forall xtemplate paramlist mode fd,
      XPASetFd1 T NULL xtemplate paramlist mode fd s = open_failed s)).
Proof.
  intros Hs h.
  assert (Hget : myXPA_get T false s =
                 (if h =? NULL then Throw (IoError "Unable to open XPA")
                  else Return h,
                  {| singleton := if h =? NULL then None else Some myXPA_obj;
                     _xpa := h;
                     trace := trace s ++ [EOpen (cstr "w") h] |})).
  { now rewrite (myXPA_get_fresh T s Hs). }
  split.
  - unfold acquire. now rewrite Hget.
  - intros Hnull. rewrite Hnull in Hget. simpl in Hget.
    repeat split.
    + exact Hget.
    + intros. now rewrite XPAGet1_run, resolve_null, Hget.
    + intros xtemplate paramlist mode buf len Hlen.
      rewrite XPASet1_run, auto_len_run, resolve_null, Hget.
      destruct (len <? 0) eqn:E; [|reflexivity].
      destruct Hlen as [Hlen | Hbuf]; [apply Z.ltb_lt in E; lia |].
      apply strlen_defined_iff in Hbuf.
      destruct (strlen buf); [reflexivity | contradiction].
    + intros. now rewrite XPASetFd1_run, resolve_null, Hget.
Qed.

(** C6 on a transport that cannot open a connection. *)
Lemma acquire_opens_w_or_fails_witness :
  singleton initial = None /\
  open_result closed_stub (trace initial) (cstr "w") = NULL /\
  XPAGet1 closed_stub NULL (cstr "ds9") (cstr "frame 1") (cstr EmptyString)
    initial = open_failed initial /\
  XPASet1 closed_stub NULL (cstr "ds9") (cstr "file") (cstr EmptyString)
    (cstr "abc") 3 initial = open_failed initial.
Proof.
  destruct (acquire_opens_w_or_fails closed_stub initial eq_refl)
    as (_ & H).
  destruct (H eq_refl) as (_ & Hget & Hset & _).
  split; [reflexivity | split; [reflexivity | split]].
  - apply Hget.
  - apply Hset. left. lia.
Defined.

(** C7.  In every reachable state the sessions opened by the connection
    manager and not yet closed are at most one, namely the stored handle;
    and the same bound held after every transport call made on the way. *)
Theorem at_most_one_session T s :
  reachable T s ->
  open_sessions (trace s) = Some (stored s) /\
  (List.length (stored s) <= 1)%nat /\
  never_two (trace s).
Proof.
  intros Hr. destruct (reachable_inv T s Hr) as (H1 & _ & H3).
  split; [exact H1 | split; [|exact H3]].
  unfold stored. destruct (singleton s); simpl; lia.
Qed.

(** C7 after a [get] without a handle followed by a [reset]. *)
Lemma at_most_one_session_witness :
  let s := snd (exec ds9_stub OpReset
             (snd (exec ds9_stub
                     (OpGet NULL (cstr "ds9") (cstr "frame 1")
                        (cstr EmptyString)) initial))) in
  reachable ds9_stub s /\
  open_sessions (trace s) = Some [7] /\
  closes (trace s) = [EClose 7].
Proof.
  intros s.
  assert (Hr : reachable ds9_stub s).
  { apply reachable_exec; [apply reachable_exec |].
    - apply reachable_initial.
    - discriminate.
    - discriminate. }
  destruct (at_most_one_session ds9_stub s Hr) as (H & _ & _).
  split; [exact Hr | split; [exact H | reflexivity]].
Defined.

(** C9, as the code has it.  No [XPAClose] is ever given a handle that is
    not open, so no session is closed twice; [XPAClose] is called only by
    [reset()].  The end of the process runs no code of this file: the
    sessions open in the last state, that is the stored handle, stay
    open. *)
Theorem sessions_closed_at_most_once T s :
  reachable T s ->
  let s_end := snd (process_exit s) in
  trace s_end = trace s /\
  open_sessions (trace s_end) = Some (stored s) /\
  (forall o, o <> OpReset ->
     closes (trace (snd (exec T o s))) = closes (trace s)).
Proof.
  intros Hr s_end. destruct (reachable_inv T s Hr) as (H1 & _ & _).
  split; [reflexivity | split; [exact H1 |]].
  intros o Ho. now apply same_connection_exec.
Qed.

(** C9 fails as stated: a handle still open when the process ends is not
    closed.  After one [acquire] the process ends with handle 7 opened once
    and closed never. *)
Lemma open_handle_not_closed_at_exit :
  let s := snd (exec ds9_stub OpAcquire initial) in
  let s_end := snd (process_exit s) in
  opens (trace s_end) = [EOpen (cstr "w") 7] /\
  closes (trace s_end) = [] /\
  open_sessions (trace s_end) = Some [7] /\
  open_sessions (trace s_end) <> Some [].
Proof.
  split; [reflexivity | split; [reflexivity | split; [reflexivity |]]].
  discriminate.
Qed.

(** C9 as amended, on a run that resets once: the first session is closed
    once, by the reset, and the second is open when the process ends. *)
Lemma sessions_closed_at_most_once_witness :
  let s := snd (exec ds9_stub OpReset
             (snd (exec ds9_stub OpAcquire initial))) in
  reachable ds9_stub s /\
  trace (snd (process_exit s))
    = [EOpen (cstr "w") 7; EClose 7; EOpen (cstr "w") 7] /\
  open_sessions (trace (snd (process_exit s))) = Some [7].
Proof.
  intros s.
  assert (Hr : reachable ds9_stub s).
  { apply reachable_exec; [apply reachable_exec |].
    - apply reachable_initial.
    - discriminate.
    - discriminate. }
  destruct (sessions_closed_at_most_once ds9_stub s Hr) as (Ht & Hopen & _).
  split; [exact Hr | split; [rewrite Ht; reflexivity | exact Hopen]].
Defined.

(** C8.  Whatever the outcome of a wrapper, an exception or an error string
    included, the state it leaves holds the connection it found: no
    [XPAClose] was called, and a handle that was stored is still the stored
    one, neither cleared nor opened again.  The same holds of [acquire], so
    that [XPAClose] is left to [reset()]. *)
Theorem wrappers_keep_connection T s xpa xtemplate paramlist mode buf len fd :
  same_connection s (snd (XPAGet1 T xpa xtemplate paramlist mode s)) /\
  same_connection s (snd (XPASet1 T xpa xtemplate paramlist mode buf len s)) /\
  same_connection s (snd (XPASetFd1 T xpa xtemplate paramlist mode fd s)) /\
  same_connection s (snd (acquire T s)).
Proof.
  split; [|split; [|split]].
  - apply same_connection_XPAGet1.
  - apply same_connection_XPASet1.
  - apply same_connection_XPASetFd1.
  - unfold acquire. rewrite <- resolve_null. apply same_connection_resolve.
Qed.

(** A [get] nobody answers, on the shared handle: it throws and the handle
    stays. *)
Example failed_get_keeps_handle :
  XPAGet1 (stub 7 reply_no_match set_ok) NULL (cstr "ds9") (cstr "frame 1")
    (cstr EmptyString) ds9_open
  = (Throw (IoError "XPAGet returned 0"),
     {| singleton := Some myXPA_obj; _xpa := 7;
        trace := [EOpen (cstr "w") 7;
                  EGet 7 (cstr "ds9") (cstr "frame 1") (cstr EmptyString) 1
                    reply_no_match] |}).
Proof. reflexivity. Qed.

(** ** The length given to [XPASet] *)

(** C5 fails as stated: an explicit length that is negative is not handed
    on.  With payload ["abc"] and length [-2], which is not the sentinel,
    [XPASet] is given 3. *)
Lemma explicit_negative_len_not_passed :
  let s := snd (set ds9_stub 7 (cstr "ds9") (cstr "file") (cstr EmptyString)
                  (cstr "abc") (Some (-2)) initial) in
  -2 <> len_default /\
  passed_len (trace s) = Some 3 /\
  passed_len (trace s) <> Some (-2).
Proof.
  split; [discriminate | split; [reflexivity | discriminate]].
Qed.

(** C5, as the code has it.  When the call reaches the transport: with a
    negative length, the sentinel [-1] of a call that leaves the length out
    or any other, [XPASet] is given [strlen(buf)], for a payload of at most
    [INT_MAX] characters; with a length that is not negative, [XPASet] is
    given exactly that length, whatever the payload. *)
Theorem set_length_passed T s xpa xtemplate paramlist mode buf h s1 :
  resolve T xpa s = (Return h, s1) ->
  let sent len :=
    passed_len
      (trace (snd (set T xpa xtemplate paramlist mode buf len s))) in
  (forall m, strlen buf = Some m -> m <= INT_MAX -> sent None = Some m) /\
  (forall len m, len < 0 -> strlen buf = Some m -> m <= INT_MAX ->
     sent (Some len) = Some m) /\
  (forall len, 0 <= len -> sent (Some len) = Some len).
Proof.
  intros Hres sent.
  assert (Hneg : forall len m, len < 0 -> strlen buf = Some m ->
            m <= INT_MAX ->
            passed_len
              (trace (snd (XPASet1 T xpa xtemplate paramlist mode buf len s)))
            = Some m).
  { intros len m Hlen Hm Hmax.
    rewrite XPASet1_run, auto_len_run, Hres.
    apply Z.ltb_lt in Hlen. rewrite Hlen, Hm. simpl.
    rewrite passed_len_snoc, int_of_size_t_small; [reflexivity |].
    split; [now apply strlen_nonneg with buf | exact Hmax]. }
  split; [|split].
  - intros m Hm Hmax. subst sent. unfold set, len_default; simpl.
    apply Hneg; [lia | exact Hm | exact Hmax].
  - intros len m Hlen Hm Hmax. subst sent. unfold set; simpl.
    now apply Hneg.
  - intros len Hlen. subst sent. unfold set; simpl.
    rewrite XPASet1_run, auto_len_run, Hres.
    apply Z.ltb_ge in Hlen. rewrite Hlen. simpl.
    apply passed_len_snoc.
Qed.

(** C5 as amended, on the stub: the length left out gives 3 for ["abc"];
    the explicit lengths 2 and 5 are handed on although the payload has 3
    characters. *)
Lemma set_length_passed_witness :
  let sent len :=
    passed_len
      (trace (snd (set ds9_stub NULL (cstr "ds9") (cstr "file")
                     (cstr EmptyString) (cstr "abc") len initial))) in
  resolve ds9_stub NULL initial = (Return 7, ds9_open) /\
  strlen (cstr "abc") = Some 3 /\
  sent None = Some 3 /\
  sent (Some (-2)) = Some 3 /\
  sent (Some 2) = Some 2 /\
  sent (Some 5) = Some 5.
Proof.
  intros sent.
  destruct (set_length_passed ds9_stub initial NULL (cstr "ds9") (cstr "file")
              (cstr EmptyString) (cstr "abc") 7 ds9_open eq_refl)
    as (Hauto & Hneg & Hexp).
  split; [reflexivity | split; [reflexivity |]].
  split; [|split; [|split]].
  - apply Hauto; [reflexivity | unfold INT_MAX; lia].
  - apply Hneg; [lia | reflexivity | unfold INT_MAX; lia].
  - apply Hexp. lia.
  - apply Hexp. lia.
Defined.

Lemma resolve_defined T xpa s : fst (resolve T xpa s) <> Undefined.
Proof.
  destruct (resolve_cases T xpa s) as [E | [(o & _ & E) | (_ & E)]];
    rewrite E; simpl; try discriminate.
  destruct (_ =? NULL); discriminate.
Qed.

(** C10.  Every negative length, not the sentinel [-1] alone, makes [set]
    take the length from [strlen(buf)]: the call is the call with [-1].
    Such a call has defined behaviour exactly when [buf] is not null and
    holds a NUL; [strlen] then returns the position of the first NUL, and
    that number, as an [int], is the length used. *)
Theorem negative_len_uses_strlen T s xpa xtemplate paramlist mode buf len :
  len < 0 ->
  XPASet1 T xpa xtemplate paramlist mode buf len s
    = XPASet1 T xpa xtemplate paramlist mode buf len_default s /\
  (fst (XPASet1 T xpa xtemplate paramlist mode buf len s) <> Undefined
   <-> valid_cstring buf) /\
  (valid_cstring buf ->
   exists pre post,
     buf = Some (pre ++ x00 :: post) /\ ~ In x00 pre /\
     strlen buf = Some (Z.of_nat (List.length pre)) /\
     auto_len buf len s
       = (Return (int_of_size_t (Z.of_nat (List.length pre))), s)).
Proof.
  intros Hlen. apply Z.ltb_lt in Hlen.
  split; [|split].
  - rewrite !XPASet1_run, !auto_len_run, Hlen. reflexivity.
  - rewrite XPASet1_run, auto_len_run, Hlen.
    rewrite <- strlen_defined_iff.
    destruct (strlen buf) as [n|]; simpl.
    + split; [discriminate | intros _].
      pose proof (resolve_defined T xpa s) as Hd.
      destruct (resolve T xpa s) as [[h|e|] s1]; simpl in *;
        try discriminate; try contradiction.
      destruct (set_n _ =? 0); [discriminate |].
      destruct (negb _); discriminate.
    + split; intros H; now elim H.
  - intros Hv. apply strlen_defined_iff in Hv.
    destruct buf as [bs|]; simpl in Hv; [|now elim Hv].
    destruct (strlen_from bs) as [n|] eqn:E; [|now elim Hv].
    destruct (strlen_from_split bs n E) as (pre & post & -> & Hnot & <-).
    exists pre, post. split; [reflexivity | split; [exact Hnot |]].
    rewrite auto_len_run, Hlen. simpl. rewrite E. simpl. now split.
Qed.

(** C10 for the length [-5] and the payload ["abc"]. *)
Lemma negative_len_uses_strlen_witness :
  -5 < 0 /\
  XPASet1 ds9_stub NULL (cstr "ds9") (cstr "file") (cstr EmptyString)
    (cstr "abc") (-5) initial
  = XPASet1 ds9_stub NULL (cstr "ds9") (cstr "file") (cstr EmptyString)
      (cstr "abc") len_default initial /\
  valid_cstring (cstr "abc").
Proof.
  assert (H : -5 < 0) by lia.
  destruct (negative_len_uses_strlen ds9_stub initial NULL (cstr "ds9")
              (cstr "file") (cstr EmptyString) (cstr "abc") (-5) H)
    as (Hsame & Hdef & _).
  split; [exact H | split; [exact Hsame |]].
  apply Hdef. discriminate.
Defined.

(** * Further properties of the connector *)

Section MoreFacts.

Variable T : Transport.

Lemma resolve_run xpa s :
  resolve T xpa s =
    if xpa =? NULL
    then match singleton s with
         | Some _ => (Return (_xpa s), s)
         | None =>
             let h := open_result T (trace s) (cstr "w") in
             (if h =? NULL then Throw (IoError "Unable to open XPA")
              else Return h,
              {| singleton := if h =? NULL then None else Some myXPA_obj;
                 _xpa := h;
                 trace := trace s ++ [EOpen (cstr "w") h] |})
         end
    else (Return xpa, s).
Proof.
  unfold resolve. destruct (xpa =? NULL); [|reflexivity].
  destruct (singleton s) as [o|] eqn:H.
  - now apply myXPA_get_stored with o.
  - now apply myXPA_get_fresh.
Qed.

Lemma fst_then_ret {A} (m : M A) s :
  fst ((m ;; ret tt) s) =
    match fst (m s) with
    | Return _ => Return tt
    | Throw e => Throw e
    | Undefined => Undefined
    end.
Proof. unfold bind, ret. now destruct (m s) as [[a|e|] s1]. Qed.


Lemma requests_snoc tr e :
  requests (tr ++ [e]) = requests tr ++ (if is_request e then [e] else []).
Proof.
  unfold requests. rewrite filter_app. simpl. now destruct (is_request e).
Qed.

Lemma successful_opens_snoc tr e :
  successful_opens (tr ++ [e])
  = successful_opens tr ++ (if is_successful_open e then [e] else []).
Proof.
  unfold successful_opens. rewrite filter_app. simpl.
  now destruct (is_successful_open e).
Qed.

Lemma remove_first_length h l l' :
  remove_first h l = Some l' -> List.length l = S (List.length l').
Proof.
  revert l'. induction l as [|x l IH]; intros l' H; simpl in H.
  - discriminate.
  - destruct (x =? h).
    + now injection H as <-.
    + destruct (remove_first h l) as [r|]; [|discriminate].
      injection H as <-. simpl. now rewrite (IH r eq_refl).
Qed.

Lemma open_sessions_count tr live :
  open_sessions tr = Some live ->
  List.length (successful_opens tr)
  = (List.length (closes tr) + List.length live)%nat.
Proof.
  revert live. induction tr as [|e tr IH] using rev_ind; intros live H.
  - injection H as <-. reflexivity.
  - rewrite open_sessions_snoc in H.
    destruct (open_sessions tr) as [l0|]; [|discriminate].
    specialize (IH l0 eq_refl).
    rewrite successful_opens_snoc, closes_snoc, !length_app, IH.
    destruct e as [mode h | h | | |]; simpl in *.
    + destruct (h =? NULL); injection H as <-; simpl;
        rewrite ?length_app; simpl; lia.
    + apply remove_first_length in H. lia.
    + injection H as <-. lia.
    + injection H as <-. lia.
    + injection H as <-. lia.
Qed.

Lemma reset_closes_then_reopens_aux s :
  reset T s =
    (if open_result T
          (trace s ++ match singleton s with
                      | Some _ => [EClose (_xpa s)]
                      | None => []
                      end) (cstr "w") =? NULL
     then Throw (IoError "Unable to open XPA") else Return tt,
     {| singleton :=
          if open_result T
               (trace s ++ match singleton s with
                           | Some _ => [EClose (_xpa s)]
                           | None => []
                           end) (cstr "w") =? NULL
          then None else Some myXPA_obj;
        _xpa := open_result T
                  (trace s ++ match singleton s with
                              | Some _ => [EClose (_xpa s)]
                              | None => []
                              end) (cstr "w");
        trace := (trace s ++ match singleton s with
                             | Some _ => [EClose (_xpa s)]
                             | None => []
                             end)
                 ++ [EOpen (cstr "w")
                       (open_result T
                          (trace s ++ match singleton s with
                                      | Some _ => [EClose (_xpa s)]
                                      | None => []
                                      end) (cstr "w"))] |}).
Proof.
  unfold reset, bind, ret. rewrite myXPA_get_reset. cbv zeta.
  destruct (_ =? NULL); reflexivity.
Qed.

End MoreFacts.

Section CallFacts.

Variable T : Transport.

Lemma resolve_non_null xpa s h s1 :
  inv s -> resolve T xpa s = (Return h, s1) -> h <> NULL.
Proof.
  intros (_ & Hnn & _) H. rewrite resolve_run in H.
  destruct (xpa =? NULL) eqn:E.
  - destruct (singleton s) as [o|] eqn:Hs.
    + injection H as <- <-. apply Hnn. congruence.
    + cbv zeta in H.
      destruct (open_result T (trace s) (cstr "w") =? NULL) eqn:Eh;
        [discriminate |].
      injection H as <- <-. now apply Z.eqb_neq.
  - injection H as <- <-. now apply Z.eqb_neq.
Qed.

Lemma well_formed_resolve xpa s :
  Forall well_formed_call (trace s) ->
  Forall well_formed_call (trace (snd (resolve T xpa s))).
Proof.
  intros H. rewrite resolve_run.
  destruct (xpa =? NULL); [|exact H].
  destruct (singleton s); [exact H |].
  simpl. apply Forall_app. split; [exact H |].
  constructor; [reflexivity | constructor].
Qed.

Lemma well_formed_log s e :
  well_formed_call e ->
  Forall well_formed_call (trace s) ->
  Forall well_formed_call (trace (log e s)).
Proof.
  intros He H. simpl. apply Forall_app. split; [exact H |].
  constructor; [exact He | constructor].
Qed.

Lemma well_formed_reset s :
  inv s ->
  Forall well_formed_call (trace s) ->
  Forall well_formed_call (trace (snd (myXPA_get T true s))).
Proof.
  intros (_ & Hnn & _) H. rewrite myXPA_get_reset. simpl.
  apply Forall_app. split; [|constructor; [reflexivity | constructor]].
  apply Forall_app. split; [exact H |].
  destruct (singleton s) as [o|]; [|constructor].
  constructor; [|constructor]. simpl. apply Hnn. discriminate.
Qed.

Lemma well_formed_exec o s :
  inv s ->
  Forall well_formed_call (trace s) ->
  Forall well_formed_call (trace (snd (exec T o s))).
Proof.
  intros Hinv H. destruct o; simpl; rewrite ?snd_then_ret.
  - unfold acquire. rewrite <- resolve_null. now apply well_formed_resolve.
  - unfold reset. rewrite snd_then_ret. now apply well_formed_reset.
  - rewrite XPAGet1_run.
    pose proof (well_formed_resolve xpa s H) as Hr.
    pose proof (resolve_non_null xpa s) as Hnn.
    destruct (resolve T xpa s) as [[h|e|] s1]; simpl in *; try exact Hr.
    apply Forall_app. split; [exact Hr |].
    constructor; [|constructor]. split; [|reflexivity].
    now apply (Hnn h s1).
  - unfold set. rewrite XPASet1_run, auto_len_run.
    pose proof (well_formed_resolve xpa s H) as Hr.
    pose proof (resolve_non_null xpa s) as Hnn.
    destruct (if _ <? 0 then _ else _) as [l|e|]; simpl; try exact H.
    destruct (resolve T xpa s) as [[h|e|] s1]; simpl in *; try exact Hr.
    apply Forall_app. split; [exact Hr |].
    constructor; [|constructor]. split; [|reflexivity].
    now apply (Hnn h s1).
  - rewrite XPASetFd1_run.
    pose proof (well_formed_resolve xpa s H) as Hr.
    pose proof (resolve_non_null xpa s) as Hnn.
    destruct (resolve T xpa s) as [[h|e|] s1]; simpl in *; try exact Hr.
    apply Forall_app. split; [exact Hr |].
    constructor; [|constructor]. split; [|reflexivity].
    now apply (Hnn h s1).
Qed.

End CallFacts.

(** ** Handles *)

(** X1.  A wrapper given a handle that is not null leaves the connection
    manager alone: the statics are as before, no [XPAOpen] is made even when
    no handle is stored, and the trace grows by the one request, made on the
    caller's handle with the caller's arguments, for one responder. *)
Theorem explicit_handle_bypasses_manager
    T s xpa xtemplate paramlist mode buf len fd :
  xpa <> NULL ->
  snd (XPAGet1 T xpa xtemplate paramlist mode s)
    = log (EGet xpa xtemplate paramlist mode 1
             (get_result T (trace s) xpa xtemplate paramlist mode 1)) s /\
  (forall l, fst (auto_len buf len s) = Return l ->
     snd (XPASet1 T xpa xtemplate paramlist mode buf len s)
       = log (ESet xpa xtemplate paramlist mode buf l 1
                (set_result T (trace s) xpa xtemplate paramlist mode buf l 1))
           s) /\
  snd (XPASetFd1 T xpa xtemplate paramlist mode fd s)
    = log (ESetFd xpa xtemplate paramlist mode fd 1
             (setfd_result T (trace s) xpa xtemplate paramlist mode fd 1)) s.
Proof.
  intros Hx. pose proof (resolve_explicit T xpa s Hx) as Hr.
  split; [|split].
  - now rewrite XPAGet1_run, Hr.
  - intros l Hl. rewrite XPASet1_run.
    destruct (auto_len buf len s) as [o s0]. simpl in Hl. subst o.
    now rewrite Hr.
  - now rewrite XPASetFd1_run, Hr.
Qed.

(** X1 with handle 9 and a transport that cannot open a connection: the
    request is made all the same, and nothing is stored. *)
Lemma explicit_handle_bypasses_manager_witness :
  9 <> NULL /\
  snd (XPAGet1 closed_stub 9 (cstr "ds9") (cstr "frame 1") (cstr EmptyString)
         initial)
  = {| singleton := None; _xpa := NULL;
       trace := [EGet 9 (cstr "ds9") (cstr "frame 1") (cstr EmptyString) 1
                   (reply_payload "1")] |}.
Proof.
  assert (H : 9 <> NULL) by discriminate.
  destruct (explicit_handle_bypasses_manager closed_stub initial 9
              (cstr "ds9") (cstr "frame 1") (cstr EmptyString) None 0 0 H)
    as (Hget & _).
  split; [exact H |]. rewrite Hget. reflexivity.
Defined.

(** X2.  In a reachable state the handle a wrapper goes on with is never
    null.  It is the caller's when the caller gave one, the state being
    untouched; otherwise it is the stored handle, which is then the one
    session open. *)
Theorem resolved_handle_is_stored T s xpa h s1 :
  reachable T s ->
  resolve T xpa s = (Return h, s1) ->
  h <> NULL /\
  (xpa <> NULL -> h = xpa /\ s1 = s) /\
  (xpa = NULL ->
   _xpa s1 = h /\ stored s1 = [h] /\ open_sessions (trace s1) = Some [h]).
Proof.
  intros Hr H. pose proof (reachable_inv T s Hr) as Hinv.
  split; [now apply (resolve_non_null T xpa s h s1) | split].
  - intros Hx. rewrite (resolve_explicit T xpa s Hx) in H.
    now injection H as <- <-.
  - intros ->.
    pose proof (inv_resolve T NULL s Hinv) as Hinv1. rewrite H in Hinv1.
    simpl in Hinv1. destruct Hinv1 as (Hopen & _ & _).
    assert (Hst : _xpa s1 = h /\ stored s1 = [h]).
    { rewrite resolve_run in H. simpl in H. unfold stored.
      destruct (singleton s) as [o|] eqn:Hs.
      - injection H as <- <-. now rewrite Hs.
      - cbv zeta in H.
        destruct (open_result T (trace s) (cstr "w") =? NULL);
          [discriminate |].
        now injection H as <- <-. }
    destruct Hst as [Hx Hst].
    split; [exact Hx | split; [exact Hst |]]. now rewrite <- Hst.
Qed.

(** X2 at the start of the process. *)
Lemma resolved_handle_is_stored_witness :
  reachable ds9_stub initial /\
  resolve ds9_stub NULL initial = (Return 7, ds9_open) /\
  7 <> NULL /\ stored ds9_open = [7].
Proof.
  destruct (resolved_handle_is_stored ds9_stub initial NULL 7 ds9_open
              (reachable_initial ds9_stub) eq_refl) as (Hnn & _ & Himp).
  destruct (Himp eq_refl) as (_ & Hst & _).
  split; [apply reachable_initial | split; [reflexivity |]].
  split; [exact Hnn | exact Hst].
Defined.

(** X3.  Every call this file has made to the transport, in any reachable
    state, is well formed: [XPAOpen] was called with mode ["w"], [XPAClose]
    and the three requests on a handle that is not null, and each request
    asked for one responder. *)
Theorem calls_well_formed T s :
  reachable T s -> Forall well_formed_call (trace s).
Proof.
  induction 1 as [|o s Hs IH Hdef].
  - constructor.
  - apply well_formed_exec; [now apply (reachable_inv T) | exact IH].
Qed.

(** X3 after a [get] without a handle and a [reset]. *)
Lemma calls_well_formed_witness :
  let s := snd (exec ds9_stub OpReset
             (snd (exec ds9_stub
                     (OpGet NULL (cstr "ds9") (cstr "frame 1")
                        (cstr EmptyString)) initial))) in
  reachable ds9_stub s /\
  List.length (trace s) = 4%nat /\
  Forall well_formed_call (trace s).
Proof.
  intros s.
  assert (Hr : reachable ds9_stub s).
  { apply reachable_exec; [apply reachable_exec |].
    - apply reachable_initial.
    - discriminate.
    - discriminate. }
  split; [exact Hr | split; [reflexivity |]].
  exact (calls_well_formed ds9_stub s Hr).
Defined.

(** ** Results and exceptions *)

(** X4.  A wrapper that returns, returns a pointer that is not null: the
    error string or the payload it tested, or the empty literal. *)
Theorem wrappers_return_non_null T s xpa xtemplate paramlist mode buf len fd p :
  (fst (XPAGet1 T xpa xtemplate paramlist mode s) = Return p ->
   is_null p = false) /\
  (fst (XPASet1 T xpa xtemplate paramlist mode buf len s) = Return p ->
   is_null p = false) /\
  (fst (XPASetFd1 T xpa xtemplate paramlist mode fd s) = Return p ->
   is_null p = false).
Proof.
  split; [|split].
  - rewrite XPAGet1_run.
    destruct (resolve T xpa s) as [[h|e|] s1]; simpl; try discriminate.
    destruct (get_n _ =? 0); [discriminate |].
    destruct (is_null (get_error _)) eqn:Ee; simpl.
    + destruct (is_null (get_buf _)) eqn:Eb; [discriminate |].
      intros H. injection H as <-. exact Eb.
    + intros H. injection H as <-. exact Ee.
  - rewrite XPASet1_run.
    destruct (auto_len buf len s) as [[l|e|] s0]; simpl; try discriminate.
    destruct (resolve T xpa s) as [[h|e|] s1]; simpl; try discriminate.
    destruct (set_n _ =? 0); [discriminate |].
    destruct (is_null (set_error _)) eqn:Ee; simpl.
    + intros H. injection H as <-. reflexivity.
    + intros H. injection H as <-. exact Ee.
  - rewrite XPASetFd1_run.
    destruct (resolve T xpa s) as [[h|e|] s1]; simpl; try discriminate.
    destruct (set_n _ =? 0); [discriminate |].
    destruct (is_null (set_error _)) eqn:Ee; simpl.
    + intros H. injection H as <-. reflexivity.
    + intros H. injection H as <-. exact Ee.
Qed.

(** X4 on the stub. *)
Lemma wrappers_return_non_null_witness :
  fst (XPAGet1 ds9_stub NULL (cstr "ds9") (cstr "frame 1") (cstr EmptyString)
         initial) = Return (cstr "1") /\
  is_null (cstr "1") = false.
Proof.
  destruct (wrappers_return_non_null ds9_stub initial NULL (cstr "ds9")
              (cstr "frame 1") (cstr EmptyString) None 0 0 (cstr "1"))
    as (H & _).
  split; [reflexivity | exact (H eq_refl)].
Defined.

Lemma resolve_throws T xpa s e s1 :
  resolve T xpa s = (Throw e, s1) ->
  e = IoError "Unable to open XPA" /\ singleton s1 = None /\
  requests (trace s1) = requests (trace s).
Proof.
  rewrite resolve_run. destruct (xpa =? NULL); [|discriminate].
  destruct (singleton s); [discriminate |]. cbv zeta.
  destruct (open_result T (trace s) (cstr "w") =? NULL); [|discriminate].
  intros H. injection H as <- <-. simpl.
  now rewrite requests_snoc, app_nil_r.
Qed.

Lemma resolve_returns_requests T xpa s h s1 :
  resolve T xpa s = (Return h, s1) ->
  requests (trace s1) = requests (trace s).
Proof.
  rewrite resolve_run. destruct (xpa =? NULL).
  - destruct (singleton s).
    + intros H. now injection H as <- <-.
    + cbv zeta.
      destruct (open_result T (trace s) (cstr "w") =? NULL); [discriminate |].
      intros H. injection H as <- <-. simpl.
      now rewrite requests_snoc, app_nil_r.
  - intros H. now injection H as <- <-.
Qed.

(** X5.  An operation throws nothing but [IoError], with one of five
    messages.  With ["Unable to open XPA"] no request was made and no handle
    is stored afterwards; with any of the others, which are those of the
    wrapper called, exactly one request was made. *)
Theorem thrown_exceptions T o s e :
  fst (exec T o s) = Throw e ->
  let s' := snd (exec T o s) in
  (e = IoError "Unable to open XPA" /\ singleton s' = None /\
   requests (trace s') = requests (trace s)) \/
  (In e (request_errors o) /\
   List.length (requests (trace s')) = S (List.length (requests (trace s)))).
Proof.
  intros He s'. subst s'. destruct o; simpl in *.
  - left. rewrite snd_then_ret. rewrite fst_then_ret in He.
    unfold acquire in *. rewrite <- resolve_null in *.
    destruct (resolve T NULL s) as [[h|e0|] s1] eqn:Hr; simpl in *;
      try discriminate.
    injection He as ->. now apply (resolve_throws T NULL s).
  - left. unfold reset in *. rewrite snd_then_ret. rewrite fst_then_ret in He.
    rewrite myXPA_get_reset in *. cbv zeta in *. simpl in *.
    destruct (open_result T _ (cstr "w") =? NULL); [|discriminate].
    injection He as <-. split; [reflexivity | split; [reflexivity |]].
    rewrite requests_snoc, app_nil_r.
    destruct (singleton s); [|now rewrite app_nil_r].
    now rewrite requests_snoc, app_nil_r.
  - rewrite snd_then_ret. rewrite fst_then_ret in He.
    rewrite XPAGet1_run in *.
    destruct (resolve T xpa s) as [[h|e0|] s1] eqn:Hr; simpl in *;
      try discriminate.
    + right. rewrite requests_snoc. simpl. rewrite length_app. simpl.
      rewrite (resolve_returns_requests T xpa s h s1 Hr).
      split; [|lia].
      destruct (get_n _ =? 0); [injection He as <-; now left |].
      destruct (is_null (get_error _)); simpl in He; [|discriminate].
      destruct (is_null (get_buf _)); [|discriminate].
      injection He as <-. right. now left.
    + left. injection He as ->. now apply (resolve_throws T xpa s).
  - rewrite snd_then_ret. rewrite fst_then_ret in He.
    unfold set in *. rewrite XPASet1_run, auto_len_run in *.
    set (l0 := match len with Some l => l | None => len_default end) in *.
    assert (Hl : exists l,
              (if l0 <? 0
               then match strlen buf with
                    | Some n => Return (int_of_size_t n)
                    | None => Undefined
                    end
               else Return l0) = Return l
              \/ (if l0 <? 0
                  then match strlen buf with
                       | Some n => Return (int_of_size_t n)
                       | None => @Undefined Z
                       end
                  else Return l0) = Undefined).
    { destruct (l0 <? 0); [|exists l0; now left].
      destruct (strlen buf) as [n|];
        [exists (int_of_size_t n); now left | exists 0; now right]. }
    destruct Hl as (l & [Hl | Hl]); rewrite Hl in *; simpl in *;
      try discriminate.
    destruct (resolve T xpa s) as [[h|e0|] s1] eqn:Hr; simpl in *;
      try discriminate.
    + right. rewrite requests_snoc. simpl. rewrite length_app. simpl.
      rewrite (resolve_returns_requests T xpa s h s1 Hr).
      split; [|lia].
      destruct (set_n _ =? 0); [injection He as <-; now left |].
      destruct (is_null (set_error _)); discriminate.
    + left. injection He as ->. now apply (resolve_throws T xpa s).
  - rewrite snd_then_ret. rewrite fst_then_ret in He.
    rewrite XPASetFd1_run in *.
    destruct (resolve T xpa s) as [[h|e0|] s1] eqn:Hr; simpl in *;
      try discriminate.
    + right. rewrite requests_snoc. simpl. rewrite length_app. simpl.
      rewrite (resolve_returns_requests T xpa s h s1 Hr).
      split; [|lia].
      destruct (set_n _ =? 0); [injection He as <-; now left |].
      destruct (is_null (set_error _)); discriminate.
    + left. injection He as ->. now apply (resolve_throws T xpa s).
Qed.

(** X5 for a [get] nobody answers. *)
Lemma thrown_exceptions_witness :
  let T := stub 7 reply_no_match set_ok in
  let o := OpGet NULL (cstr "ds9") (cstr "frame 1") (cstr EmptyString) in
  fst (exec T o initial) = Throw (IoError "XPAGet returned 0") /\
  List.length (requests (trace (snd (exec T o initial)))) = 1%nat.
Proof.
  intros T o.
  destruct (thrown_exceptions T o initial (IoError "XPAGet returned 0")
              eq_refl) as [(H & _) | (_ & H)].
  - discriminate H.
  - split; [reflexivity | exact H].
Defined.



(** ** Reset, failure and bookkeeping *)

(** X6.  When [reset()] returns, the handle is already open: the last call
    in the trace is the [XPAOpen] that gave the stored handle, which is not
    null, and the [acquire] that follows returns that handle and calls
    nothing. *)
Theorem reset_then_acquire T s :
  fst (reset T s) = Return tt ->
  let s' := snd (reset T s) in
  _xpa s' <> NULL /\
  stored s' = [_xpa s'] /\
  (exists tr, trace s' = tr ++ [EOpen (cstr "w") (_xpa s')]) /\
  acquire T s' = (Return (_xpa s'), s').
Proof.
  intros H s'. subst s'.
  pose proof (reset_closes_then_reopens_aux T s) as E.
  rewrite E in *. cbv zeta in *. simpl in *.
  destruct (open_result T _ (cstr "w") =? NULL) eqn:Eh; [discriminate |].
  split; [now apply Z.eqb_neq | split; [reflexivity | split]].
  - eexists. reflexivity.
  - unfold acquire. now rewrite (myXPA_get_stored T myXPA_obj).
Qed.

(** X6 at the start of the process. *)
Lemma reset_then_acquire_witness :
  fst (reset ds9_stub initial) = Return tt /\
  acquire ds9_stub (snd (reset ds9_stub initial)) = (Return 7, ds9_open).
Proof.
  destruct (reset_then_acquire ds9_stub initial eq_refl) as (_ & _ & _ & H).
  split; [reflexivity | exact H].
Defined.

(** X7.  When [reset()] throws, in a reachable state, the exception is
    [IoError "Unable to open XPA"]; the handle that was stored has been
    closed all the same, no handle is stored and no session is open. *)
Theorem failed_reset_closes_connection T s e :
  reachable T s ->
  fst (reset T s) = Throw e ->
  let s' := snd (reset T s) in
  e = IoError "Unable to open XPA" /\
  singleton s' = None /\ _xpa s' = NULL /\
  open_sessions (trace s') = Some [] /\
  closes (trace s')
  = closes (trace s) ++ match singleton s with
                        | Some _ => [EClose (_xpa s)]
                        | None => []
                        end.
Proof.
  intros Hr H s'. subst s'.
  pose proof (inv_exec T OpReset s (reachable_inv T s Hr)) as (Hopen & _ & _).
  simpl in Hopen.
  pose proof (reset_closes_then_reopens_aux T s) as E.
  rewrite E in *. cbv zeta in *. simpl in *.
  destruct (open_result T _ (cstr "w") =? NULL) eqn:Eh; [|discriminate].
  injection H as <-. apply Z.eqb_eq in Eh.
  split; [reflexivity | split; [reflexivity | split; [exact Eh | split]]].
  - exact Hopen.
  - rewrite closes_snoc, app_nil_r.
    destruct (singleton s); [|now rewrite !app_nil_r].
    now rewrite closes_snoc.
Qed.

(** X7 with a transport that opens a connection once and then no more. *)
Lemma failed_reset_closes_connection_witness :
  let T := {| open_result := fun tr _ => match tr with [] => 7 | _ => NULL end;
              get_result := fun _ _ _ _ _ _ => reply_nothing;
              set_result := fun _ _ _ _ _ _ _ _ => set_ok;
              setfd_result := fun _ _ _ _ _ _ _ => set_ok |} in
  let s := snd (exec T OpAcquire initial) in
  reachable T s /\
  stored s = [7] /\
  fst (reset T s) = Throw (IoError "Unable to open XPA") /\
  closes (trace (snd (reset T s))) = [EClose 7] /\
  open_sessions (trace (snd (reset T s))) = Some [].
Proof.
  intros T s.
  assert (Hr : reachable T s).
  { apply reachable_exec; [apply reachable_initial | discriminate]. }
  destruct (failed_reset_closes_connection T s
              (IoError "Unable to open XPA") Hr eq_refl)
    as (_ & _ & _ & Hopen & Hcl).
  split; [exact Hr | split; [reflexivity | split; [reflexivity | split]]].
  - exact Hcl.
  - exact Hopen.
Defined.

(** X8.  A failed [XPAOpen] is not remembered.  When [acquire] throws, no
    object is kept, and the next [acquire] calls [XPAOpen("w")] again; it
    returns the handle when this second call gives one. *)
Theorem failed_open_is_retried T s e :
  fst (acquire T s) = Throw e ->
  let s1 := snd (acquire T s) in
  let h2 := open_result T (trace s1) (cstr "w") in
  singleton s = None /\ singleton s1 = None /\
  trace s1 = trace s ++ [EOpen (cstr "w") NULL] /\
  trace (snd (acquire T s1))
  = trace s ++ [EOpen (cstr "w") NULL; EOpen (cstr "w") h2] /\
  (h2 <> NULL -> fst (acquire T s1) = Return h2).
Proof.
  unfold acquire. intros H.
  destruct (singleton s) as [o|] eqn:Hs.
  { rewrite (myXPA_get_stored T o s Hs) in H. discriminate. }
  rewrite (myXPA_get_fresh T s Hs) in *. cbv zeta in *. simpl in *.
  destruct (open_result T (trace s) (cstr "w") =? NULL) eqn:Eh;
    [|discriminate].
  apply Z.eqb_eq in Eh. rewrite Eh.
  split; [reflexivity | split; [reflexivity | split; [reflexivity |]]].
  rewrite myXPA_get_fresh by reflexivity. cbv zeta. simpl.
  split.
  - now rewrite <- app_assoc.
  - intros Hh. apply Z.eqb_neq in Hh. now rewrite Hh.
Qed.

(** X8 with a transport whose first [XPAOpen] fails. *)
Lemma failed_open_is_retried_witness :
  fst (acquire flaky_stub initial) = Throw (IoError "Unable to open XPA") /\
  fst (acquire flaky_stub (snd (acquire flaky_stub initial))) = Return 7 /\
  trace (snd (acquire flaky_stub (snd (acquire flaky_stub initial))))
  = [EOpen (cstr "w") NULL; EOpen (cstr "w") 7].
Proof.
  destruct (failed_open_is_retried flaky_stub initial
              (IoError "Unable to open XPA") eq_refl)
    as (_ & _ & _ & Htr & Hret).
  split; [reflexivity | split].
  - apply Hret. discriminate.
  - exact Htr.
Defined.

(** X9.  In every reachable state [XPAClose] has been called once for each
    session that was opened, the stored one apart: the calls of [XPAOpen]
    that gave a handle are as many as the calls of [XPAClose], plus one when
    a handle is stored. *)
Theorem session_bookkeeping T s :
  reachable T s ->
  List.length (successful_opens (trace s))
  = (List.length (closes (trace s)) + List.length (stored s))%nat.
Proof.
  intros Hr. destruct (reachable_inv T s Hr) as (H & _ & _).
  now apply open_sessions_count.
Qed.

(** X9 after an [acquire] and two resets: three sessions opened, two
    closed, one stored. *)
Lemma session_bookkeeping_witness :
  let s := snd (exec ds9_stub OpReset
             (snd (exec ds9_stub OpReset
                     (snd (exec ds9_stub OpAcquire initial))))) in
  reachable ds9_stub s /\
  List.length (successful_opens (trace s)) = 3%nat /\
  List.length (closes (trace s)) = 2%nat /\
  List.length (stored s) = 1%nat.
Proof.
  intros s.
  assert (Hr : reachable ds9_stub s).
  { repeat (apply reachable_exec; [|discriminate]). apply reachable_initial. }
  pose proof (session_bookkeeping ds9_stub s Hr) as H.
  split; [exact Hr | split; [exact H | split; reflexivity]].
Defined.

(** ** The shared handle between calls *)

(** X11.  With a handle stored, a wrapper called without a handle makes one
    transport call and no more: the request, on the stored handle.  The
    statics are as before and [XPAOpen] is not called. *)
Theorem stored_handle_is_reused T s o xtemplate paramlist mode buf len fd :
  singleton s = Some o ->
  snd (XPAGet1 T NULL xtemplate paramlist mode s)
    = log (EGet (_xpa s) xtemplate paramlist mode 1
             (get_result T (trace s) (_xpa s) xtemplate paramlist mode 1)) s /\
  (forall l, fst (auto_len buf len s) = Return l ->
     snd (XPASet1 T NULL xtemplate paramlist mode buf len s)
       = log (ESet (_xpa s) xtemplate paramlist mode buf l 1
                (set_result T (trace s) (_xpa s) xtemplate paramlist mode
                   buf l 1)) s) /\
  snd (XPASetFd1 T NULL xtemplate paramlist mode fd s)
    = log (ESetFd (_xpa s) xtemplate paramlist mode fd 1
             (setfd_result T (trace s) (_xpa s) xtemplate paramlist mode fd 1))
        s.
Proof.
  intros Hs.
  assert (Hr : resolve T NULL s = (Return (_xpa s), s)).
  { rewrite resolve_null. now apply myXPA_get_stored with o. }
  split; [|split].
  - now rewrite XPAGet1_run, Hr.
  - intros l Hl. rewrite XPASet1_run.
    destruct (auto_len buf len s) as [r s0]. simpl in Hl. subst r.
    now rewrite Hr.
  - now rewrite XPASetFd1_run, Hr.
Qed.

(** X11 for two [get]s in a row: one [XPAOpen], two requests on handle 7. *)
Lemma stored_handle_is_reused_witness :
  singleton ds9_open = Some myXPA_obj /\
  trace (snd (XPAGet1 ds9_stub NULL (cstr "ds9") (cstr "frame 1")
                (cstr EmptyString)
                (snd (XPAGet1 ds9_stub NULL (cstr "ds9") (cstr "frame 1")
                        (cstr EmptyString) initial))))
  = [EOpen (cstr "w") 7;
     EGet 7 (cstr "ds9") (cstr "frame 1") (cstr EmptyString) 1
       (reply_payload "1");
     EGet 7 (cstr "ds9") (cstr "frame 1") (cstr EmptyString) 1
       (reply_payload "1")].
Proof.
  split; [reflexivity |].
  destruct (stored_handle_is_reused ds9_stub
              (snd (XPAGet1 ds9_stub NULL (cstr "ds9") (cstr "frame 1")
                      (cstr EmptyString) initial))
              myXPA_obj (cstr "ds9") (cstr "frame 1") (cstr EmptyString)
              None 0 0 eq_refl) as (H & _).
  rewrite H. reflexivity.
Defined.

Lemma no_object_null_resolve T xpa s :
  (singleton s = None -> _xpa s = NULL) ->
  singleton (snd (resolve T xpa s)) = None ->
  _xpa (snd (resolve T xpa s)) = NULL.
Proof.
  intros H. rewrite resolve_run. destruct (xpa =? NULL); [|exact H].
  destruct (singleton s) eqn:Hs.
  { simpl. intros Hn. congruence. }
  cbv zeta. simpl.
  destruct (open_result T (trace s) (cstr "w") =? NULL) eqn:Eh;
    [|discriminate].
  intros _. now apply Z.eqb_eq.
Qed.

Lemma no_object_null_exec T o s :
  (singleton s = None -> _xpa s = NULL) ->
  singleton (snd (exec T o s)) = None -> _xpa (snd (exec T o s)) = NULL.
Proof.
  intros H. destruct o; simpl; rewrite ?snd_then_ret.
  - unfold acquire. rewrite <- resolve_null. now apply no_object_null_resolve.
  - rewrite reset_closes_then_reopens_aux. simpl.
    destruct (_ =? NULL) eqn:Eh; [|discriminate].
    intros _. now apply Z.eqb_eq.
  - rewrite XPAGet1_run.
    pose proof (no_object_null_resolve T xpa s H) as Hr.
    destruct (resolve T xpa s) as [[h|e|] s1]; exact Hr.
  - unfold set. rewrite XPASet1_run, auto_len_run.
    pose proof (no_object_null_resolve T xpa s H) as Hr.
    destruct (if _ <? 0 then _ else _) as [l|e|]; simpl; try exact H.
    destruct (resolve T xpa s) as [[h|e|] s1]; exact Hr.
  - rewrite XPASetFd1_run.
    pose proof (no_object_null_resolve T xpa s H) as Hr.
    destruct (resolve T xpa s) as [[h|e|] s1]; exact Hr.
Qed.

(** X12.  Between operations the static [_xpa] is null exactly when no
    object exists: it never keeps the address of a session that was
    closed. *)
Theorem xpa_null_iff_no_object T s :
  reachable T s -> (singleton s = None <-> _xpa s = NULL).
Proof.
  intros Hr. split.
  - induction Hr as [|o s Hs IH Hdef]; [reflexivity |].
    now apply no_object_null_exec.
  - destruct (reachable_inv T s Hr) as (_ & Hnn & _).
    destruct (singleton s); [|reflexivity].
    intros Hx. exfalso. apply Hnn; [discriminate | exact Hx].
Qed.

(** X12 after a reset that could not open a connection again. *)
Lemma xpa_null_iff_no_object_witness :
  let T := {| open_result := fun tr _ => match tr with [] => 7 | _ => NULL end;
              get_result := fun _ _ _ _ _ _ => reply_nothing;
              set_result := fun _ _ _ _ _ _ _ _ => set_ok;
              setfd_result := fun _ _ _ _ _ _ _ => set_ok |} in
  let s := snd (exec T OpReset (snd (exec T OpAcquire initial))) in
  reachable T s /\ singleton s = None /\ _xpa s = NULL.
Proof.
  intros T s.
  assert (Hr : reachable T s).
  { repeat (apply reachable_exec; [|discriminate]). apply reachable_initial. }
  split; [exact Hr | split; [reflexivity |]].
  now apply (proj1 (xpa_null_iff_no_object T s Hr)).
Defined.
